(** * DeepTrace backend: the scoring pipeline of [main.py]

    A shallow embedding of the two request handlers of [main.py],
    [analyze_media] and [verify_media], together with the parts of the
    Python runtime they rely on:

    - [str] values are Rocq strings whose characters are code points
      below 256 (the Latin-1 range; wider code points are not modelled);
    - [int] values are [Z], with Python's floor division and modulo;
    - [float] values are Rocq's primitive binary64 floats, which is what
      a CPython [float] is;
    - [hashlib.sha256] is SHA-256 as FIPS 180-4 defines it;
    - a raised exception is a value of [py_exception], and a handler
      runs in a small monad that also logs, in order, the calls that
      leave the handler ([file.read], [hashlib.sha256], [datetime.now],
      [create_document]). *)

From Stdlib Require Import ZArith List Bool Ascii String QArith Qpower Qabs Lia.
From Stdlib.Strings Require Import Byte.
From Stdlib Require Import Uint63 PrimFloat FloatOps SpecFloat FloatAxioms.
Import ListNotations.

Set Warnings "-inexact-float,-register-all".
Local Open Scope string_scope.
Local Open Scope Z_scope.

(** ** Python strings *)

Module PyStr.

Definition code (c : ascii) : Z := Z.of_N (N_of_ascii c).
Definition chr (z : Z) : ascii := ascii_of_N (Z.to_N z).

(** [str.lower] on one code point below 256: the ASCII capitals and the
    Latin-1 capitals U+00C0..U+00DE (the multiplication sign U+00D7 is
    not a letter) move 32 places up; everything else stays. *)
Definition lower_char (c : ascii) : ascii :=
  let n := code c in
  if ((65 <=? n) && (n <=? 90))
     || ((192 <=? n) && (n <=? 222) && negb (n =? 215))
  then chr (n + 32) else c.

Fixpoint lower (s : string) : string :=
  match s with
  | EmptyString => EmptyString
  | String c r => String (lower_char c) (lower r)
  end.

(** [s[:n]] and [s[n:]] for [n >= 0]. *)
Fixpoint take (n : nat) (s : string) : string :=
  match n, s with
  | S n', String c r => String c (take n' r)
  | _, _ => EmptyString
  end.

Fixpoint drop (n : nat) (s : string) : string :=
  match n, s with
  | S n', String _ r => drop n' r
  | _, _ => s
  end.

(** [s.endswith(suffix)] and [s.endswith((suffix1, suffix2, ...))]. *)
Definition endswith (s suffix : string) : bool :=
  (String.length suffix <=? String.length s)%nat
  && String.eqb (drop (String.length s - String.length suffix) s) suffix.

Definition endswith_any (s : string) (suffixes : list string) : bool :=
  existsb (endswith s) suffixes.

(** *** [int(s, base)]

    CPython first rewrites a string that is not pure ASCII
    ([_PyUnicode_TransformDecimalAndSpaceToASCII]): code points below
    127 are kept, Unicode white space becomes a blank, a decimal digit
    becomes its ASCII digit, and the first other character becomes a
    question mark at which the copy stops.  Below 256 the white space
    outside ASCII is U+0085 and U+00A0, and there is no decimal digit
    outside ASCII. *)
Definition is_ascii (s : string) : bool :=
  forallb (fun c => code c <? 128) (list_ascii_of_string s).

Definition is_unicode_space (c : ascii) : bool :=
  let n := code c in
  ((9 <=? n) && (n <=? 13)) || ((28 <=? n) && (n <=? 32))
  || (n =? 133) || (n =? 160).

Fixpoint transform_decimal_and_space (s : string) : string :=
  match s with
  | EmptyString => EmptyString
  | String c r =>
      if code c <? 127 then String c (transform_decimal_and_space r)
      else if is_unicode_space c
           then String " "%char (transform_decimal_and_space r)
           else String "?"%char EmptyString
  end.

(** [Py_ISSPACE]: blank, and the controls from tab to carriage return. *)
Definition is_space (c : ascii) : bool :=
  let n := code c in ((9 <=? n) && (n <=? 13)) || (n =? 32).

Fixpoint skip_spaces (s : string) : string :=
  match s with
  | String c r => if is_space c then skip_spaces r else s
  | EmptyString => s
  end.

(** [_PyLong_DigitValue]: the value of a digit in bases up to 36. *)
Definition digit_value (c : ascii) : option Z :=
  let n := code c in
  if (48 <=? n) && (n <=? 57) then Some (n - 48)
  else if (97 <=? n) && (n <=? 122) then Some (n - 87)
  else if (65 <=? n) && (n <=? 90) then Some (n - 55)
  else None.

Definition is_underscore (c : ascii) : bool := code c =? 95.

(** The digit scan of [long_from_binary_base]: digits of the base, with
    single underscores between them; it stops at the first other
    character and fails on a doubled or a trailing underscore.  The
    result is the value read, the number of digits, and the rest. *)
Fixpoint scan_digits (base : Z) (s : string) (prev_underscore : bool)
         (acc : Z) (ndigits : nat) : option (Z * nat * string) :=
  let stop := if prev_underscore then None else Some (acc, ndigits, s) in
  match s with
  | EmptyString => stop
  | String c r =>
      if is_underscore c then
        if prev_underscore then None
        else scan_digits base r true acc ndigits
      else
        match digit_value c with
        | Some d =>
            if d <? base
            then scan_digits base r false (acc * base + d) (S ndigits)
            else stop
        | None => stop
        end
  end.

(** [PyLong_FromString] for base 16: white space, one optional sign, an
    optional [0x] or [0X] (after which one underscore may stand), the
    digits, white space, and the end of the string. *)
Definition long_from_string16 (s : string) : option Z :=
  let s1 := skip_spaces s in
  let '(negative, s2) :=
    match s1 with
    | String c r =>
        if (code c =? 43) then (false, r)
        else if (code c =? 45) then (true, r)
        else (false, s1)
    | EmptyString => (false, s1)
    end in
  let s3 :=
    match s2 with
    | String c0 (String c1 r) =>
        if (code c0 =? 48) && ((code c1 =? 120) || (code c1 =? 88))
        then match r with
             | String c2 r' => if is_underscore c2 then r' else r
             | EmptyString => r
             end
        else s2
    | _ => s2
    end in
  match s3 with
  | String c _ =>
      if is_underscore c then None
      else
        match scan_digits 16 s3 false 0 0 with
        | Some (v, ndigits, rest) =>
            match ndigits, skip_spaces rest with
            | S _, EmptyString => Some (if negative then - v else v)
            | _, _ => None
            end
        | None => None
        end
  | EmptyString => None
  end.

(** [int(s, 16)]: [None] stands for the [ValueError] Python raises. *)
Definition int16 (s : string) : option Z :=
  long_from_string16
    (if is_ascii s then s else transform_decimal_and_space s).

End PyStr.

(** ** Python numbers *)

Module PyNum.

(** An [int] operand of a float operation is converted first.  The
    conversion is exact below 2^53 and rounds to nearest below 2^63;
    every [int] the handlers convert is below 1000. *)
Definition float_of_int (z : Z) : float :=
  if z <? 0 then PrimFloat.opp (PrimFloat.of_uint63 (Uint63.of_Z (- z)))
  else PrimFloat.of_uint63 (Uint63.of_Z z).

(** [min(a, b)] and [max(a, b)] keep the first argument unless the
    second one is strictly smaller, respectively strictly larger. *)
Definition min2 (a b : float) : float := if PrimFloat.ltb b a then b else a.
Definition max2 (a b : float) : float := if PrimFloat.ltb a b then b else a.

(** The builtin [sum] over floats, from the start value [0].  Up to
    CPython 3.11 it adds from left to right; from 3.12 on it carries
    Neumaier's compensation term along and adds it at the end. *)
Inductive sum_algorithm := LeftToRight | Compensated.

Definition compensated_step (st : float * float) (x : float) : float * float :=
  let '(hi, c) := st in
  let t := (hi + x)%float in
  if PrimFloat.leb (PrimFloat.abs x) (PrimFloat.abs hi)
  then (t, (c + ((hi - t) + x))%float)
  else (t, (c + ((x - t) + hi))%float).

Definition compensated_result (st : float * float) : float :=
  let '(hi, c) := st in
  if negb (PrimFloat.eqb c 0%float) && PrimFloat.is_finite c
  then (hi + c)%float else hi.

Definition sum (alg : sum_algorithm) (xs : list float) : float :=
  match xs with
  | [] => float_of_int 0
  | x :: rest =>
      let first := (float_of_int 0 + x)%float in
      match alg with
      | LeftToRight => fold_left PrimFloat.add rest first
      | Compensated =>
          compensated_result (fold_left compensated_step rest (first, 0%float))
      end
  end.

(** [range(n)]. *)
Definition range (n : nat) : list Z := map Z.of_nat (seq 0 n).

(** The exact rational value of a finite float (0 for the others). *)
Definition Q_of_spec_float (x : spec_float) : Q :=
  match x with
  | S754_finite s m e =>
      (inject_Z (if s then Z.neg m else Z.pos m) * Qpower 2 e)%Q
  | _ => 0%Q
  end.

Definition Q_of_float (f : float) : Q := Q_of_spec_float (Prim2SF f).

End PyNum.

(** ** [hashlib.sha256] *)

Module Hashlib.

Definition add32 (a b : Z) : Z := (a + b) mod 4294967296.
Definition rotr (n x : Z) : Z :=
  Z.lor (Z.shiftr x n) (Z.land (Z.shiftl x (32 - n)) 4294967295).
Definition not32 (x : Z) : Z := Z.lxor x 4294967295.

Definition Ch (x y z : Z) : Z := Z.lxor (Z.land x y) (Z.land (not32 x) z).
Definition Maj (x y z : Z) : Z :=
  Z.lxor (Z.lxor (Z.land x y) (Z.land x z)) (Z.land y z).
Definition Sigma0 (x : Z) : Z := Z.lxor (Z.lxor (rotr 2 x) (rotr 13 x)) (rotr 22 x).
Definition Sigma1 (x : Z) : Z := Z.lxor (Z.lxor (rotr 6 x) (rotr 11 x)) (rotr 25 x).
Definition sigma0 (x : Z) : Z := Z.lxor (Z.lxor (rotr 7 x) (rotr 18 x)) (Z.shiftr x 3).
Definition sigma1 (x : Z) : Z := Z.lxor (Z.lxor (rotr 17 x) (rotr 19 x)) (Z.shiftr x 10).

Definition K : list Z :=
  [ 0x428A2F98; 0x71374491; 0xB5C0FBCF; 0xE9B5DBA5; 0x3956C25B; 0x59F111F1;
    0x923F82A4; 0xAB1C5ED5; 0xD807AA98; 0x12835B01; 0x243185BE; 0x550C7DC3;
    0x72BE5D74; 0x80DEB1FE; 0x9BDC06A7; 0xC19BF174; 0xE49B69C1; 0xEFBE4786;
    0x0FC19DC6; 0x240CA1CC; 0x2DE92C6F; 0x4A7484AA; 0x5CB0A9DC; 0x76F988DA;
    0x983E5152; 0xA831C66D; 0xB00327C8; 0xBF597FC7; 0xC6E00BF3; 0xD5A79147;
    0x06CA6351; 0x14292967; 0x27B70A85; 0x2E1B2138; 0x4D2C6DFC; 0x53380D13;
    0x650A7354; 0x766A0ABB; 0x81C2C92E; 0x92722C85; 0xA2BFE8A1; 0xA81A664B;
    0xC24B8B70; 0xC76C51A3; 0xD192E819; 0xD6990624; 0xF40E3585; 0x106AA070;
    0x19A4C116; 0x1E376C08; 0x2748774C; 0x34B0BCB5; 0x391C0CB3; 0x4ED8AA4A;
    0x5B9CCA4F; 0x682E6FF3; 0x748F82EE; 0x78A5636F; 0x84C87814; 0x8CC70208;
    0x90BEFFFA; 0xA4506CEB; 0xBEF9A3F7; 0xC67178F2 ].

(** The eight working words. *)
Definition state : Type := Z * Z * Z * Z * Z * Z * Z * Z.

Definition H0 : state :=
  (0x6A09E667, 0xBB67AE85, 0x3C6EF372, 0xA54FF53A,
   0x510E527F, 0x9B05688C, 0x1F83D9AB, 0x5BE0CD19).

Definition round (st : state) (k w : Z) : state :=
  let '(a, b, c, d, e, f, g, h) := st in
  let t1 := add32 (add32 (add32 (add32 h (Sigma1 e)) (Ch e f g)) k) w in
  let t2 := add32 (Sigma0 a) (Maj a b c) in
  (add32 t1 t2, a, b, c, add32 d t1, e, f, g).

(** The 64 rounds over a sliding window of sixteen schedule words:
    the window starts as the block, and each round consumes its head
    and appends W[t+16]. *)
Fixpoint rounds (ks : list Z) (window : list Z) (st : state) : state :=
  match ks, window with
  | k :: ks', w0 :: rest =>
      let w1 := nth 0 rest 0 in
      let w9 := nth 8 rest 0 in
      let w14 := nth 13 rest 0 in
      let w16 := add32 (add32 (add32 (sigma1 w14) w9) (sigma0 w1)) w0 in
      rounds ks' (rest ++ [w16])%list (round st k w0)
  | _, _ => st
  end.

Definition compress (st : state) (block : list Z) : state :=
  let '(a, b, c, d, e, f, g, h) := st in
  let '(a', b', c', d', e', f', g', h') := rounds K block st in
  (add32 a a', add32 b b', add32 c c', add32 d d',
   add32 e e', add32 f f', add32 g g', add32 h h').

(** Big-endian words of a byte list, four bytes a word. *)
Fixpoint words (n : nat) (bytes : list Z) : list Z :=
  match n, bytes with
  | S n', b0 :: b1 :: b2 :: b3 :: rest =>
      (b0 * 16777216 + b1 * 65536 + b2 * 256 + b3) :: words n' rest
  | _, _ => []
  end.

Definition be64 (n : Z) : list Z :=
  map (fun k => Z.shiftr n (8 * k) mod 256) [7; 6; 5; 4; 3; 2; 1; 0].

(** The message, a one bit, zeros up to 56 modulo 64, the bit length. *)
Definition pad (msg : list Z) : list Z :=
  let len := Z.of_nat (List.length msg) in
  (msg ++ [128] ++ repeat 0 (Z.to_nat ((55 - len) mod 64)) ++ be64 (8 * len))%list.

Fixpoint absorb (nblocks : nat) (bytes : list Z) (st : state) : state :=
  match nblocks with
  | O => st
  | S n => absorb n (skipn 64 bytes) (compress st (words 16 (firstn 64 bytes)))
  end.

Definition digest_words (msg : list byte) : state :=
  let padded := pad (map (fun b => Z.of_N (Byte.to_N b)) msg) in
  absorb (List.length padded / 64) padded H0.

Definition hex_char (nibble : Z) : ascii :=
  nth (Z.to_nat (nibble mod 16))
      (list_ascii_of_string "0123456789abcdef") "0"%char.

(** Eight lower-case hexadecimal digits of a word, high nibble first. *)
Definition hex8 (w : Z) : string :=
  string_of_list_ascii
    (map (fun k => hex_char (Z.shiftr w (4 * k))) [7; 6; 5; 4; 3; 2; 1; 0]).

(** [hashlib.sha256(msg).hexdigest()]. *)
Definition sha256_hexdigest (msg : list byte) : string :=
  let '(a, b, c, d, e, f, g, h) := digest_words msg in
  (hex8 a ++ hex8 b ++ hex8 c ++ hex8 d
   ++ hex8 e ++ hex8 f ++ hex8 g ++ hex8 h)%string.

End Hashlib.

(** ** [datetime] *)

Module Datetime.

(** An aware [datetime] whose [tzinfo] is [timezone.utc]. *)
Record datetime : Type := {
  year : Z; month : Z; day : Z;
  hour : Z; minute : Z; second : Z; microsecond : Z
}.

(** The last [width] decimal digits of [z]: Python's zero-padded
    [%0<width>d] for a field that fits its width, as every field of a
    [datetime] does. *)
Fixpoint zero_padded (width : nat) (z : Z) : string :=
  match width with
  | O => EmptyString
  | S w => (zero_padded w (z / 10) ++ String (PyStr.chr (48 + z mod 10)) EmptyString)%string
  end.

(** [d.isoformat()]: the microseconds are left out when they are 0. *)
Definition isoformat (d : datetime) : string :=
  (zero_padded 4 (year d) ++ "-" ++ zero_padded 2 (month d) ++ "-"
   ++ zero_padded 2 (day d) ++ "T" ++ zero_padded 2 (hour d) ++ ":"
   ++ zero_padded 2 (minute d) ++ ":" ++ zero_padded 2 (second d)
   ++ (if (microsecond d =? 0)%Z then EmptyString
       else "." ++ zero_padded 6 (microsecond d))
   ++ "+00:00")%string.

End Datetime.

(** ** Python values, exceptions and effects *)

Module Py.

Inductive pyval : Type :=
| VNone
| VBool (b : bool)
| VInt (z : Z)
| VFloat (f : float)
| VStr (s : string)
| VDatetime (d : Datetime.datetime)
| VList (l : list pyval)
| VDict (d : list (string * pyval)).

(** A [dict] with string keys, in insertion order. *)
Definition dict : Type := list (string * pyval).

Fixpoint dict_get (d : dict) (key : string) : option pyval :=
  match d with
  | [] => None
  | (k, v) :: rest => if String.eqb k key then Some v else dict_get rest key
  end.

Definition keys (d : dict) : list string := map fst d.

(** The exceptions of the model; each is an instance of [Exception]. *)
Inductive py_exception : Type :=
| HTTPException (status_code : Z) (detail : string)
| ValueError (message : string)
| KeyError (key : string)
| TypeError (message : string)
| OtherException (class_name : string).

Inductive outcome (A : Type) : Type :=
| Returns (a : A)
| Raises (e : py_exception).
Arguments Returns {A} a.
Arguments Raises {A} e.

(** The calls that leave a handler. *)
Inductive event : Type :=
| FileRead (filename : string)
| Sha256 (content : list byte)
| DatetimeNow
| CreateDocument (collection : string) (doc : dict).

(** A computation extends the log of calls and returns or raises. *)
Definition M (A : Type) : Type := list event -> outcome A * list event.

Definition ret {A} (a : A) : M A := fun log => (Returns a, log).
Definition raise {A} (e : py_exception) : M A := fun log => (Raises e, log).
Definition bind {A B} (m : M A) (k : A -> M B) : M B :=
  fun log =>
    match m log with
    | (Returns a, log') => k a log'
    | (Raises e, log') => (Raises e, log')
    end.
Definition call {A} (ev : event) (result : outcome A) : M A :=
  fun log => (result, (log ++ [ev])%list).

(** [try: m  except Exception: handler]. *)
Definition try_except {A} (m : M A) (handler : py_exception -> M A) : M A :=
  fun log =>
    match m log with
    | (Returns a, log') => (Returns a, log')
    | (Raises e, log') => handler e log'
    end.

Definition run {A} (m : M A) : outcome A * list event := m [].

Fixpoint mapM {A B} (f : A -> M B) (l : list A) : M (list B) :=
  match l with
  | [] => ret []
  | a :: rest =>
      bind (f a) (fun b => bind (mapM f rest) (fun bs => ret (b :: bs)))
  end.

(** [d[key]]. *)
Definition getitem (d : dict) (key : string) : M pyval :=
  match dict_get d key with
  | Some v => ret v
  | None => raise (KeyError key)
  end.

(** [int(s, 16)]. *)
Definition int16 (s : string) : M Z :=
  match PyStr.int16 s with
  | Some n => ret n
  | None => raise (ValueError "invalid literal for int() with base 16")
  end.

End Py.

Declare Scope py_scope.
Delimit Scope py_scope with py.
Notation "x <- m ;; k" := (Py.bind m (fun x => k))
(at level 61, m at next level, right associativity) : py_scope.

(** ** [main.py] *)

Module UploadFile.
(** The uploaded file: its name, a [str], and what [await file.read()]
    returns. *)
Record t : Type := { filename : string; content : list byte }.
End UploadFile.

Module AnalyzeResponse.
Record t : Type := {
  job_id : string;
  filename : string;
  accuracy : float;
  deepfake_likelihood : float;
  frame_scores : list Py.dict;
  analyzed_at : Datetime.datetime;
  verification : option Py.dict
}.
End AnalyzeResponse.

Module VerifyRequest.
Record t : Type := { filehash : string }.
End VerifyRequest.

Module Main.
Import Py.

(** What a request meets outside the handler: the Python version's
    [sum], the clock, and [database.create_document], which is not part
    of the sources at hand and is taken as it comes: for a collection
    and a document it returns an identifier or raises. *)
Record Env : Type := {
  sum_algorithm : PyNum.sum_algorithm;
  now : Datetime.datetime;
  create_document : string -> dict -> outcome string
}.

Definition total_frames : nat := 60.

Definition pseudo_rand (seed i : Z) : float :=
  (PyNum.float_of_int ((seed * (i + 73)) mod 1000) / 1000)%float.

(** The loop body's first assignment to [conf]. *)
Definition raw_confidence (seed i : Z) : float :=
  (0.5 + 0.5 * ((pseudo_rand seed i + pseudo_rand seed (i / 3))
                / PyNum.float_of_int 2))%float.

(** The [for] loop: [frame_scores] starts empty and gets one [dict]
    appended per index of [range(total_frames)]. *)
Definition score_frames (seed : Z) : list dict :=
  fold_left
    (fun frame_scores i =>
       let conf := raw_confidence seed i in
       let conf := PyNum.max2 0%float (PyNum.min2 1%float conf) in
       (frame_scores ++ [[("frame_index", VInt i); ("confidence", VFloat conf)]])%list)
    (PyNum.range total_frames) [].

(** [s["confidence"]] as an operand of [sum]: a float as it is, an [int]
    converted (as [sum] does once it adds floats); the loop above
    stores floats only. *)
Definition confidence (s : dict) : M float :=
  (v <- getitem s "confidence" ;;
   match v with
   | VFloat f => ret f
   | VInt z => ret (PyNum.float_of_int z)
   | _ => raise (TypeError "unsupported operand type(s) for +")
   end)%py.

(** [sum(s["confidence"] for s in frame_scores) / total_frames]. *)
Definition likelihood (alg : PyNum.sum_algorithm) (frame_scores : list dict)
  : M float :=
  (confidences <- mapM confidence frame_scores ;;
   ret (PyNum.sum alg confidences
        / PyNum.float_of_int (Z.of_nat total_frames))%float)%py.

Definition contract_address : string :=
  "0xDeePTrAce00000000000000000000000000000001".

Definition analyze_media (env : Env) (file : UploadFile.t) : M AnalyzeResponse.t :=
  (if negb (PyStr.endswith_any (PyStr.lower (UploadFile.filename file))
                               [".mp4"; ".avi"])
   then raise (HTTPException 400 "Only MP4 or AVI files are supported")
   else
     content <- call (FileRead (UploadFile.filename file))
                     (Returns (UploadFile.content file)) ;;
     filehash <- call (Sha256 content)
                      (Returns (Hashlib.sha256_hexdigest content)) ;;
     let filesize := Z.of_nat (List.length content) in
     seed <- int16 (PyStr.take 8 filehash) ;;
     let frame_scores := score_frames seed in
     deepfake_likelihood <- likelihood (sum_algorithm env) frame_scores ;;
     let accuracy := 0.95%float in
     analyzed_at <- call DatetimeNow (Returns (now env)) ;;
     let job_doc :=
       [ ("filename", VStr (UploadFile.filename file));
         ("filesize", VInt filesize);
         ("filehash", VStr filehash);
         ("status", VStr "completed");
         ("accuracy", VFloat accuracy);
         ("deepfake_likelihood", VFloat deepfake_likelihood);
         ("model", VStr "CNN+LSTM v1");
         ("frame_scores", VList (map VDict frame_scores));
         ("analyzed_at", VDatetime analyzed_at) ] in
     job_id <- try_except
                 (call (CreateDocument "analysisjob" job_doc)
                       (create_document env "analysisjob" job_doc))
                 (fun _ => ret "temporary") ;;
     n <- int16 filehash ;;
     let verification :=
       [ ("contract_address", VStr contract_address);
         ("tx_hash", VStr ("0x" ++ PyStr.take 64 filehash));
         ("network", VStr "ethereum");
         ("verified", VBool (if n mod 2 =? 0 then true else false));
         ("timestamp", VStr (Datetime.isoformat analyzed_at)) ] in
     ret {| AnalyzeResponse.job_id := job_id;
            AnalyzeResponse.filename := UploadFile.filename file;
            AnalyzeResponse.accuracy := accuracy;
            AnalyzeResponse.deepfake_likelihood := deepfake_likelihood;
            AnalyzeResponse.frame_scores := frame_scores;
            AnalyzeResponse.analyzed_at := analyzed_at;
            AnalyzeResponse.verification := Some verification |})%py.

Definition verify_media (env : Env) (payload : VerifyRequest.t) : M dict :=
  (let fh := PyStr.lower (VerifyRequest.filehash payload) in
   n <- int16 fh ;;
   let verified := if n mod 2 =? 0 then true else false in
   timestamp <- call DatetimeNow (Returns (now env)) ;;
   ret [ ("filehash", VStr fh);
         ("contract_address", VStr contract_address);
         ("tx_hash", VStr ("0x" ++ PyStr.take 64 fh));
         ("network", VStr "ethereum");
         ("verified", VBool verified);
         ("timestamp", VStr (Datetime.isoformat timestamp)) ])%py.

End Main.

(** ** The specification's vocabulary *)

Module Spec.

(** The value of a hexadecimal digit, in either case: its place among
    the sixteen digits. *)
Fixpoint place (c : ascii) (digits : string) (first : Z) : option Z :=
  match digits with
  | EmptyString => None
  | String d rest =>
      if Ascii.eqb c d then Some first else place c rest (first + 1)
  end.

Definition nibble (c : ascii) : option Z :=
  match place c "0123456789abcdef" 0 with
  | Some d => Some d
  | None => place c "ABCDEF" 10
  end.

Definition is_hex_digit (c : ascii) : bool :=
  match nibble c with Some _ => true | None => false end.

(** A hexadecimal numeral: one hexadecimal digit or more, nothing else. *)
Definition is_hex_numeral (s : string) : bool :=
  match s with
  | EmptyString => false
  | _ => forallb is_hex_digit (list_ascii_of_string s)
  end.

(** The numeral read as one base-16 integer. *)
Definition hex_step (acc : Z) (c : ascii) : Z :=
  16 * acc + match nibble c with Some d => d | None => 0 end.

Definition hex_value (s : string) : Z :=
  fold_left hex_step (list_ascii_of_string s) 0.

Fixpoint last_char (s : string) : option ascii :=
  match s with
  | EmptyString => None
  | String c EmptyString => Some c
  | String _ r => last_char r
  end.

(** The last character denotes an even nibble: 0, 2, 4, 6, 8, a, c, e. *)
Definition ends_in_even_nibble (s : string) : bool :=
  match last_char s with
  | Some c => existsb (Ascii.eqb c) (list_ascii_of_string "02468aceACE")
  | None => false
  end.

(** The digest is 64 lower-case hexadecimal digits. *)
Definition is_lower_hex (c : ascii) : bool :=
  existsb (Ascii.eqb c) (list_ascii_of_string "0123456789abcdef").

Definition is_digest (s : string) : bool :=
  (String.length s =? 64)%nat && forallb is_lower_hex (list_ascii_of_string s).

(** The file name ends in [ext] when case is ignored. *)
Definition ends_with_ignoring_case (name ext : string) : Prop :=
  exists prefix suffix,
    name = (prefix ++ suffix)%string /\ PyStr.lower suffix = ext.

(** Section 4.2 of the specification, in binary64 arithmetic. *)
Definition seed (digest : string) : Z := hex_value (PyStr.take 8 digest).

Definition pseudoRand (seed i : Z) : float :=
  (PyNum.float_of_int ((seed * (i + 73)) mod 1000) / 1000)%float.

Definition clamp (x lo hi : float) : float :=
  if PrimFloat.ltb x lo then lo else if PrimFloat.ltb hi x then hi else x.

Definition raw (seed i : Z) : float :=
  (0.5 + 0.5 * ((pseudoRand seed i + pseudoRand seed (i / 3)) / 2))%float.

Definition confidence (seed i : Z) : float := clamp (raw seed i) 0 1.

Definition frame_score (i : Z) (confidence : float) : Py.dict :=
  [("frame_index", Py.VInt i); ("confidence", Py.VFloat confidence)].

(** The indices 0, 1, ..., [frameCount - 1], in this order. *)
Definition generate (seed : Z) (frameCount : nat) : list Py.dict :=
  map (fun i => frame_score i (confidence seed i)) (PyNum.range frameCount).

(** Section 4.3: the arithmetic mean, summed as the runtime sums. *)
Definition mean (alg : PyNum.sum_algorithm) (xs : list float) : float :=
  (PyNum.sum alg xs / PyNum.float_of_int (Z.of_nat (List.length xs)))%float.


(** The confidence a frame score carries (0 when it carries none). *)
Definition confidence_of (s : Py.dict) : float :=
  match Py.dict_get s "confidence" with
  | Some (Py.VFloat f) => f
  | _ => 0%float
  end.

Definition confidences (seed : Z) (frameCount : nat) : list float :=
  map (confidence seed) (PyNum.range frameCount).

Definition likelihood (alg : PyNum.sum_algorithm) (digest : string) : float :=
  mean alg (confidences (seed digest) 60).

(** Section 4.4: the verification record of a digest. *)
Definition verification (digest : string) (now : Datetime.datetime) : Py.dict :=
  [ ("contract_address", Py.VStr "0xDeePTrAce00000000000000000000000000000001");
    ("tx_hash", Py.VStr ("0x" ++ digest));
    ("network", Py.VStr "ethereum");
    ("verified", Py.VBool (Z.even (hex_value digest)));
    ("timestamp", Py.VStr (Datetime.isoformat now)) ].

(** Section 4.5: the result of an analysis, for a given job identifier. *)
Definition analysis (alg : PyNum.sum_algorithm) (file : UploadFile.t)
           (now : Datetime.datetime) (job_id : string) : AnalyzeResponse.t :=
  let digest := Hashlib.sha256_hexdigest (UploadFile.content file) in
  {| AnalyzeResponse.job_id := job_id;
     AnalyzeResponse.filename := UploadFile.filename file;
     AnalyzeResponse.accuracy := 0.95%float;
     AnalyzeResponse.deepfake_likelihood := likelihood alg digest;
     AnalyzeResponse.frame_scores := generate (seed digest) 60;
     AnalyzeResponse.analyzed_at := now;
     AnalyzeResponse.verification := Some (verification digest now) |}.

(** The document [analyze_media] hands to the store. *)
Definition job_document (alg : PyNum.sum_algorithm) (file : UploadFile.t)
           (now : Datetime.datetime) : Py.dict :=
  let digest := Hashlib.sha256_hexdigest (UploadFile.content file) in
  [ ("filename", Py.VStr (UploadFile.filename file));
    ("filesize", Py.VInt (Z.of_nat (List.length (UploadFile.content file))));
    ("filehash", Py.VStr digest);
    ("status", Py.VStr "completed");
    ("accuracy", Py.VFloat 0.95%float);
    ("deepfake_likelihood", Py.VFloat (likelihood alg digest));
    ("model", Py.VStr "CNN+LSTM v1");
    ("frame_scores", Py.VList (map Py.VDict (generate (seed digest) 60)));
    ("analyzed_at", Py.VDatetime now) ].

(** The fields of the response other than [job_id]. *)
Definition same_but_job_id (r1 r2 : AnalyzeResponse.t) : Prop :=
  AnalyzeResponse.filename r1 = AnalyzeResponse.filename r2
  /\ AnalyzeResponse.accuracy r1 = AnalyzeResponse.accuracy r2
  /\ AnalyzeResponse.deepfake_likelihood r1 = AnalyzeResponse.deepfake_likelihood r2
  /\ AnalyzeResponse.frame_scores r1 = AnalyzeResponse.frame_scores r2
  /\ AnalyzeResponse.analyzed_at r1 = AnalyzeResponse.analyzed_at r2
  /\ AnalyzeResponse.verification r1 = AnalyzeResponse.verification r2.

End Spec.

(** ** Finite checks

    A pseudo-random value depends on the seed only through a residue
    modulo 1000, so every statement about the frame scores reduces to
    finitely many evaluations in binary64 arithmetic. *)

Module Table.

(** The thousand values [pseudo_rand] can take. *)
Definition residue_values : list float :=
  map (fun r => (PyNum.float_of_int r / 1000)%float) (PyNum.range 1000).

Definition raw_of (pa pb : float) : float :=
  (0.5 + 0.5 * ((pa + pb) / PyNum.float_of_int 2))%float.

(** 0.99951171875 is 2047/2048, a binary64 number. *)
Definition raw_in_range (r : float) : bool :=
  PrimFloat.leb 0.5 r && PrimFloat.leb r 0.99951171875
  && PrimFloat.ltb 0 r && PrimFloat.ltb r 1
  && negb (PrimFloat.ltb r 0) && negb (PrimFloat.ltb 1 r).

(** The value of a positive float in units of 2^-63, when it is a whole
    number of them. *)
Definition units (f : float) : option Z :=
  match Prim2SF f with
  | S754_finite false m e =>
      if -63 <=? e then Some (Z.pos m * 2 ^ (e + 63)) else None
  | _ => None
  end.

Fixpoint total_units (xs : list float) : option Z :=
  match xs with
  | [] => Some 0
  | x :: rest =>
      match units x, total_units rest with
      | Some u, Some t => Some (u + t)
      | _, _ => None
      end
  end.

(** The float mean of sixty floats is within 2^-50 of their exact mean:
    sixty times the one differs from the sum by at most 60 * 2^13 units. *)
Definition mean_is_close (l : float) (xs : list float) : bool :=
  match units l, total_units xs with
  | Some u, Some t => Z.abs (60 * u - t) <=? 60 * 2 ^ 13
  | _, _ => false
  end.

Definition likelihood_in_range (alg : PyNum.sum_algorithm) (seed : Z) : bool :=
  let xs := Spec.confidences seed 60 in
  let l := Spec.mean alg xs in
  PrimFloat.leb 0.5 l && PrimFloat.leb l 0.99951171875 && mean_is_close l xs.

End Table.

(** ** Sample requests *)

Module Example.

Definition bytes_of_string (s : string) : list byte :=
  map byte_of_ascii (list_ascii_of_string s).

Definition clock : Datetime.datetime :=
  {| Datetime.year := 2024; Datetime.month := 5; Datetime.day := 17;
     Datetime.hour := 9; Datetime.minute := 30; Datetime.second := 0;
     Datetime.microsecond := 250000 |}.

(** A store that answers, and a store that cannot be reached. *)
Definition env_up : Main.Env :=
  {| Main.sum_algorithm := PyNum.LeftToRight;
     Main.now := clock;
     Main.create_document := fun _ _ => Py.Returns "664723f0a1b2c3d4e5f60718" |}.

Definition env_down : Main.Env :=
  {| Main.sum_algorithm := PyNum.LeftToRight;
     Main.now := clock;
     Main.create_document :=
       fun _ _ => Py.Raises (Py.OtherException "ServerSelectionTimeoutError") |}.

Definition clip_mp4 : UploadFile.t :=
  {| UploadFile.filename := "Clip.MP4";
     UploadFile.content := bytes_of_string "abc" |}.

Definition clip_mov : UploadFile.t :=
  {| UploadFile.filename := "clip.mov";
     UploadFile.content := bytes_of_string "abc" |}.

(** SHA-256 of the three bytes [abc], in capitals. *)
Definition digest_abc : VerifyRequest.t :=
  {| VerifyRequest.filehash :=
       "BA7816BF8F01CFEA414140DE5DAE2223B00361A396177A9CB410FF61F20015AD" |}.

(** A hexadecimal numeral of 65 digits. *)
Definition long_numeral : VerifyRequest.t :=
  {| VerifyRequest.filehash :=
       "ba7816bf8f01cfea414140de5dae2223b00361a396177a9cb410ff61f20015ad7" |}.

Definition malformed : VerifyRequest.t := {| VerifyRequest.filehash := "zz" |}.

Definition zero_prefixed_digest : string :=
  "00000000cfea414140de5dae2223b00361a396177a9cb410ff61f20015ad1234".

End Example.

(** ** More of the runtime: [int(x)] of a float, [dict.pop] *)

Module PyMore.

(** [int(x)] for a float [x]: the value with its fraction cut off; a NaN
    raises [ValueError], an infinity raises [OverflowError]. *)
Definition int_of_float (f : float) : Py.outcome Z :=
  if PrimFloat.is_nan f
  then Py.Raises (Py.ValueError "cannot convert float NaN to integer")
  else if PrimFloat.is_infinity f
  then Py.Raises (Py.OtherException "OverflowError")
  else
    match Prim2SF f with
    | S754_finite s m e =>
        let a := if 0 <=? e then Z.pos m * 2 ^ e else Z.pos m / 2 ^ (- e) in
        Py.Returns (if s then - a else a)
    | _ => Py.Returns 0
    end.

(** [d.pop(key, None)], for what is left in [d]: the entry of [key] is
    gone (a Python [dict] holds at most one). *)
Definition dict_pop (d : Py.dict) (key : string) : Py.dict :=
  filter (fun kv => negb (String.eqb (fst kv) key)) d.

(** A [str] with code points of any size, for the texts of [test]. *)
Definition ustr : Type := list Z.

Definition ustr_of_string (s : string) : ustr :=
  map PyStr.code (list_ascii_of_string s).

End PyMore.

(** ** [schemas.py] *)

Module Schemas.
Import Py.

(** A [float] field declared with [ge=0, le=1]. *)
Definition ge0_le1 (v : pyval) : bool :=
  match v with
  | VFloat f =>
      PrimFloat.leb (PyNum.float_of_int 0) f
      && PrimFloat.leb f (PyNum.float_of_int 1)
  | _ => false
  end.

Definition is_str (v : pyval) : bool :=
  match v with VStr _ => true | _ => false end.

Definition is_int (v : pyval) : bool :=
  match v with VInt _ => true | _ => false end.

(** A required field, and a field with a default. *)
Definition required (d : dict) (key : string) (ok : pyval -> bool) : bool :=
  match dict_get d key with Some v => ok v | None => false end.

Definition optional (d : dict) (key : string) (ok : pyval -> bool) : bool :=
  match dict_get d key with Some v => ok v | None => true end.

(** [class AnalysisFrameScore]. *)
Definition AnalysisFrameScore (v : pyval) : bool :=
  match v with
  | VDict d => required d "frame_index" is_int && required d "confidence" ge0_le1
  | _ => false
  end.

(** [class AnalysisJob]: the declared type of every field, the four
    values of [status], and the bounds of the two scores.  The values
    pydantic would accept after a conversion are left out. *)
Definition AnalysisJob (d : dict) : bool :=
  required d "filename" is_str
  && required d "filesize" is_int
  && required d "filehash" is_str
  && optional d "status"
       (fun v => match v with
                 | VStr s => existsb (String.eqb s)
                                     ["queued"; "processing"; "completed"; "failed"]
                 | _ => false
                 end)
  && required d "accuracy" ge0_le1
  && required d "deepfake_likelihood" ge0_le1
  && optional d "model" is_str
  && optional d "frame_scores"
       (fun v => match v with
                 | VList l => forallb AnalysisFrameScore l
                 | _ => false
                 end)
  && optional d "analyzed_at"
       (fun v => match v with VNone | VDatetime _ => true | _ => false end).

End Schemas.

(** ** [main.py]: the other handlers *)

Module Handlers.
Import Py.

(** What [stats] meets outside: [database.get_documents], taken as it
    comes (for a collection and a limit it returns a list or raises),
    and the clock reading [datetime.now().timestamp()]. *)
Record StatsEnv : Type := {
  get_documents : string -> Z -> outcome (list pyval);
  timestamp : float
}.

(** The loop of [stats]: each document loses its [_id] and joins
    [recent]; an item that is no [dict] has no such [pop], the exception
    ends the loop, and [except Exception: pass] keeps what [recent]
    holds by then. *)
Fixpoint collect (docs : list pyval) (recent : list dict) : list dict :=
  match docs with
  | [] => recent
  | VDict d :: rest => collect rest (recent ++ [PyMore.dict_pop d "_id"])%list
  | _ :: _ => recent
  end.

Definition recent_jobs (env : StatsEnv) : list dict :=
  match get_documents env "analysisjob" 10 with
  | Returns docs => collect docs []
  | Raises _ => []
  end.

Definition stats (env : StatsEnv) : outcome dict :=
  let recent := recent_jobs env in
  match PyMore.int_of_float (timestamp env) with
  | Returns n =>
      Returns [ ("accuracy_benchmark", VFloat 0.95%float);
                ("realtime_threats", VInt (n mod 100));
                ("analyses", VInt (Z.of_nat (List.length recent)));
                ("recent", VList (map VDict recent)) ]
  | Raises e => Raises e
  end.

(** [db]: [None], or a handle whose [list_collection_names()] returns
    the names or raises an exception [e]; [text] is [str(e)]. *)
Inductive listing : Type :=
| Names (names : list PyMore.ustr)
| ListingRaises (text : PyMore.ustr).

Inductive test_value : Type :=
| TStr (s : PyMore.ustr)
| TList (l : list PyMore.ustr).

(** [resp[key] = v]: an old key keeps its place, a new one goes last. *)
Fixpoint setitem (resp : list (string * test_value)) (key : string)
         (v : test_value) : list (string * test_value) :=
  match resp with
  | [] => [(key, v)]
  | (k, old) :: rest =>
      if String.eqb k key then (k, v) :: rest else (k, old) :: setitem rest key v
  end.

Fixpoint getitem_opt (resp : list (string * test_value)) (key : string)
  : option test_value :=
  match resp with
  | [] => None
  | (k, v) :: rest => if String.eqb k key then Some v else getitem_opt rest key
  end.

(** The texts of [test]; the marks are U+2705, U+274C and U+26A0 U+FE0F. *)
Definition running : PyMore.ustr := 9989 :: PyMore.ustr_of_string " Running".
Definition not_available : PyMore.ustr :=
  10060 :: PyMore.ustr_of_string " Not Available".
Definition connected : PyMore.ustr := 9989 :: PyMore.ustr_of_string " Connected".
Definition not_configured : PyMore.ustr :=
  10060 :: PyMore.ustr_of_string " Not Configured".
Definition warning (text : PyMore.ustr) : PyMore.ustr :=
  (9888 :: 65039 :: 32 :: firstn 80 text)%list.

Definition test (db : option listing) : list (string * test_value) :=
  let resp := [("backend", TStr running); ("database", TStr not_available)] in
  match db with
  | Some handle =>
      let resp := setitem resp "database" (TStr connected) in
      match handle with
      | Names names => setitem resp "collections" (TList names)
      | ListingRaises text => setitem resp "database" (TStr (warning text))
      end
  | None => setitem resp "database" (TStr not_configured)
  end.

End Handlers.

(** ** More sample requests *)

Module Sample.

(** An [_id] of the store and a reading of the clock. *)
Definition stored (doc : Py.dict) : Py.pyval :=
  Py.VDict (("_id", Py.VStr "664723f0a1b2c3d4e5f60718") :: doc).

Definition store_with (docs : list Py.pyval) : Handlers.StatsEnv :=
  {| Handlers.get_documents := fun _ _ => Py.Returns docs;
     Handlers.timestamp := 1715938200.75%float |}.

Definition store_down : Handlers.StatsEnv :=
  {| Handlers.get_documents :=
       fun _ _ => Py.Raises (Py.OtherException "ServerSelectionTimeoutError");
     Handlers.timestamp := 1715938200.75%float |}.

Definition prefixed : VerifyRequest.t :=
  {| VerifyRequest.filehash :=
       "0XBA7816BF8F01CFEA414140DE5DAE2223B00361A396177A9CB410FF61F20015AD" |}.

End Sample.

(** * Facts about the runtime model *)

(** ** The runtime model on known values *)

Example sha256_empty :
  Hashlib.sha256_hexdigest []
  = "e3b0c44298fc1c149afbf4c8996fb92427ae41e4649b934ca495991b7852b855".
Proof. vm_compute. reflexivity. Qed.

Example sha256_abc :
  Hashlib.sha256_hexdigest (Example.bytes_of_string "abc")
  = "ba7816bf8f01cfea414140de5dae2223b00361a396177a9cb410ff61f20015ad".
Proof. vm_compute. reflexivity. Qed.

Example sha256_two_blocks :
  Hashlib.sha256_hexdigest
    (Example.bytes_of_string
       "abcdbcdecdefdefgefghfghighijhijkijkljklmklmnlmnomnopnopq")
  = "248d6a61d20638b8e5c026930c3e6039a33ce45964ff2167f6ecedd419db06c1".
Proof. vm_compute. reflexivity. Qed.

Example int16_accepts :
  map PyStr.int16 ["ff"; "FF"; "0x1f"; " 1f "; "-1f"; "+0X_1f"; "1_f"; "0"]
  = [Some 255; Some 255; Some 31; Some 31; Some (-31); Some 31; Some 31; Some 0].
Proof. vm_compute. reflexivity. Qed.

Example int16_rejects :
  map PyStr.int16
      [EmptyString; "zz"; "1g"; "0x"; "_1"; "1_"; "1__0"; "+ 1"; "0x 1"; "1 f"]
  = [None; None; None; None; None; None; None; None; None; None].
Proof. vm_compute. reflexivity. Qed.

Example sum_left_to_right :
  PyNum.sum PyNum.LeftToRight [0.1; 0.2; 0.3]%float = 0.6000000000000001%float.
Proof. vm_compute. reflexivity. Qed.

Example sum_compensated :
  PyNum.sum PyNum.Compensated [0.1; 0.2; 0.3]%float = 0.6%float.
Proof. vm_compute. reflexivity. Qed.

Example isoformat_clock :
  Datetime.isoformat Example.clock = "2024-05-17T09:30:00.250000+00:00".
Proof. vm_compute. reflexivity. Qed.

(** ** Characters and hexadecimal numerals *)

Ltac each_ascii c := destruct c as [[] [] [] [] [] [] [] []].

Lemma hex_digit_facts (c : ascii) (d : Z) :
  Spec.nibble c = Some d ->
  PyStr.digit_value c = Some d /\ 0 <= d < 16
  /\ PyStr.is_space c = false /\ PyStr.is_underscore c = false
  /\ (PyStr.code c <? 128) = true
  /\ (PyStr.code c =? 43) = false /\ (PyStr.code c =? 45) = false
  /\ (PyStr.code c =? 120) = false /\ (PyStr.code c =? 88) = false.
Proof.
  each_ascii c; intro H; try discriminate H;
    injection H as <-; vm_compute; intuition congruence.
Qed.

Lemma is_hex_digit_nibble (c : ascii) :
  Spec.is_hex_digit c = true -> exists d, Spec.nibble c = Some d.
Proof.
  unfold Spec.is_hex_digit. destruct (Spec.nibble c) as [d|]; [eauto | discriminate].
Qed.

Lemma nibble_lower_char (c : ascii) :
  Spec.nibble (PyStr.lower_char c) = Spec.nibble c.
Proof. each_ascii c; reflexivity. Qed.

Lemma lower_hex_is_hex_digit (c : ascii) :
  Spec.is_lower_hex c = true -> Spec.is_hex_digit c = true.
Proof. each_ascii c; intro H; try discriminate H; reflexivity. Qed.

Lemma nibble_parity (c : ascii) (d : Z) :
  Spec.nibble c = Some d ->
  Z.even d = existsb (Ascii.eqb c) (list_ascii_of_string "02468aceACE").
Proof. each_ascii c; intro H; try discriminate H; injection H as <-; reflexivity. Qed.

Lemma scan_digits_hex (s : string) :
  forall acc n,
    forallb Spec.is_hex_digit (list_ascii_of_string s) = true ->
    PyStr.scan_digits 16 s false acc n
    = Some (fold_left Spec.hex_step (list_ascii_of_string s) acc,
            (n + String.length s)%nat, EmptyString).
Proof.
  induction s as [|c r IH]; intros acc n Hall; simpl in *.
  - now rewrite Nat.add_0_r.
  - apply andb_prop in Hall as [Hc Hr].
    destruct (is_hex_digit_nibble c Hc) as [d Hd].
    destruct (hex_digit_facts c d Hd) as (Hv & Hrange & _ & Hu & _).
    rewrite Hu, Hv.
    replace (d <? 16) with true by (symmetry; apply Z.ltb_lt; lia).
    rewrite IH by assumption.
    replace (Spec.hex_step acc c) with (acc * 16 + d)
      by (unfold Spec.hex_step; rewrite Hd; lia).
    now rewrite Nat.add_succ_r.
Qed.

Lemma hex_numeral_is_ascii (s : string) :
  forallb Spec.is_hex_digit (list_ascii_of_string s) = true ->
  PyStr.is_ascii s = true.
Proof.
  unfold PyStr.is_ascii.
  induction (list_ascii_of_string s) as [|c l IH]; simpl; [reflexivity|].
  intros H. apply andb_prop in H as [Hc Hl].
  destruct (is_hex_digit_nibble c Hc) as [d Hd].
  destruct (hex_digit_facts c d Hd) as (_ & _ & _ & _ & Ha & _).
  now rewrite Ha, IH.
Qed.

(** [int(s, 16)] reads a hexadecimal numeral as its base-16 value. *)
Lemma int16_hex_numeral (s : string) :
  Spec.is_hex_numeral s = true -> PyStr.int16 s = Some (Spec.hex_value s).
Proof.
  destruct s as [|c r]; [discriminate|].
  unfold Spec.is_hex_numeral. intros Hall.
  unfold PyStr.int16. rewrite (hex_numeral_is_ascii _ Hall).
  pose proof Hall as Hall'. simpl in Hall'.
  apply andb_prop in Hall' as [Hc Hr].
  destruct (is_hex_digit_nibble c Hc) as [d Hd].
  destruct (hex_digit_facts c d Hd) as (_ & _ & Hsp & Hu & _ & Hplus & Hminus & _).
  unfold PyStr.long_from_string16.
  cbn [PyStr.skip_spaces]. rewrite Hsp, Hplus, Hminus.
  assert (Hprefix :
    match r with
    | String c1 r0 =>
        if (PyStr.code c =? 48) && ((PyStr.code c1 =? 120) || (PyStr.code c1 =? 88))
        then match r0 with
             | String c2 r' => if PyStr.is_underscore c2 then r' else r0
             | EmptyString => r0
             end
        else String c r
    | EmptyString => String c r
    end = String c r).
  { destruct r as [|c1 r0]; [reflexivity|].
    simpl in Hr. apply andb_prop in Hr as [Hc1 _].
    destruct (is_hex_digit_nibble c1 Hc1) as [d1 Hd1].
    destruct (hex_digit_facts c1 d1 Hd1) as (_ & _ & _ & _ & _ & _ & _ & Hx & HX).
    now rewrite Hx, HX, andb_false_r. }
  rewrite Hprefix, Hu.
  rewrite (scan_digits_hex (String c r) 0 0 Hall).
  reflexivity.
Qed.

Lemma lower_app (s t : string) :
  PyStr.lower (s ++ t) = (PyStr.lower s ++ PyStr.lower t)%string.
Proof. induction s as [|c r IH]; simpl; [reflexivity | now rewrite IH]. Qed.

Lemma lower_length (s : string) : String.length (PyStr.lower s) = String.length s.
Proof. induction s as [|c r IH]; simpl; [reflexivity | now rewrite IH]. Qed.

Lemma lower_drop (n : nat) (s : string) :
  PyStr.lower (PyStr.drop n s) = PyStr.drop n (PyStr.lower s).
Proof.
  revert s; induction n as [|n IH]; intros [|c r]; simpl; try reflexivity.
  now rewrite IH.
Qed.

Lemma take_drop (n : nat) (s : string) :
  (PyStr.take n s ++ PyStr.drop n s)%string = s.
Proof.
  revert s; induction n as [|n IH]; intros [|c r]; simpl; try reflexivity.
  now rewrite IH.
Qed.

Lemma drop_app_length (s t : string) : PyStr.drop (String.length s) (s ++ t) = t.
Proof. induction s as [|c r IH]; simpl; [now destruct t | assumption]. Qed.

Lemma app_length (s t : string) :
  String.length (s ++ t) = (String.length s + String.length t)%nat.
Proof. induction s as [|c r IH]; simpl; [reflexivity | now rewrite IH]. Qed.

Lemma take_all (n : nat) (s : string) :
  (String.length s <= n)%nat -> PyStr.take n s = s.
Proof.
  revert s; induction n as [|n IH]; intros [|c r] H; simpl in *; try reflexivity.
  - lia.
  - rewrite IH by lia. reflexivity.
Qed.

Lemma lower_chars (s : string) :
  list_ascii_of_string (PyStr.lower s)
  = map PyStr.lower_char (list_ascii_of_string s).
Proof. induction s as [|c r IH]; simpl; [reflexivity | now rewrite IH]. Qed.

Lemma hex_numeral_lower (s : string) :
  Spec.is_hex_numeral (PyStr.lower s) = Spec.is_hex_numeral s.
Proof.
  destruct s as [|c r]; [reflexivity|].
  change (Spec.is_hex_numeral (PyStr.lower (String c r)))
    with (forallb Spec.is_hex_digit
            (list_ascii_of_string (PyStr.lower (String c r)))).
  change (Spec.is_hex_numeral (String c r))
    with (forallb Spec.is_hex_digit (list_ascii_of_string (String c r))).
  rewrite lower_chars.
  induction (list_ascii_of_string (String c r)) as [|a l IH]; simpl; [reflexivity|].
  unfold Spec.is_hex_digit at 1 3. rewrite nibble_lower_char. now rewrite IH.
Qed.

Lemma hex_value_lower (s : string) :
  Spec.hex_value (PyStr.lower s) = Spec.hex_value s.
Proof.
  unfold Spec.hex_value. rewrite lower_chars.
  generalize 0.
  induction (list_ascii_of_string s) as [|a l IH]; intros acc; simpl; [reflexivity|].
  rewrite IH. unfold Spec.hex_step. now rewrite nibble_lower_char.
Qed.

Lemma last_nonempty (l : list ascii) (c d d' : ascii) :
  last (c :: l) d = last (c :: l) d'.
Proof.
  revert c; induction l as [|x l IH]; intros c; [reflexivity|].
  change (last (c :: x :: l) d) with (last (x :: l) d).
  change (last (c :: x :: l) d') with (last (x :: l) d').
  apply IH.
Qed.

(** The parity of a base-16 numeral is the parity of its last digit. *)
Lemma hex_fold_parity (l : list ascii) :
  forall acc c,
    forallb Spec.is_hex_digit (c :: l) = true ->
    Z.even (fold_left Spec.hex_step (c :: l) acc)
    = existsb (Ascii.eqb (last (c :: l) c))
              (list_ascii_of_string "02468aceACE").
Proof.
  induction l as [|c' r IH]; intros acc c Hall.
  - simpl in Hall. apply andb_prop in Hall as [Hc _].
    destruct (is_hex_digit_nibble c Hc) as [d Hd].
    cbn [fold_left last]. unfold Spec.hex_step. rewrite Hd.
    replace (16 * acc + d) with (d + 2 * (8 * acc)) by lia.
    rewrite Z.even_add_mul_2. now apply nibble_parity.
  - change (fold_left Spec.hex_step (c :: c' :: r) acc)
      with (fold_left Spec.hex_step (c' :: r) (Spec.hex_step acc c)).
    change (forallb Spec.is_hex_digit (c :: c' :: r))
      with (Spec.is_hex_digit c && forallb Spec.is_hex_digit (c' :: r)) in Hall.
    apply andb_prop in Hall as [_ Hr].
    rewrite (IH (Spec.hex_step acc c) c' Hr).
    change (last (c :: c' :: r) c) with (last (c' :: r) c).
    now rewrite (last_nonempty r c' c c').
Qed.

Lemma last_char_last (c : ascii) (r : string) :
  Spec.last_char (String c r) = Some (last (list_ascii_of_string (String c r)) c).
Proof.
  revert c; induction r as [|c' r IH]; intros c; [reflexivity|].
  change (Spec.last_char (String c (String c' r))) with (Spec.last_char (String c' r)).
  rewrite IH. f_equal.
  change (list_ascii_of_string (String c (String c' r)))
    with (c :: list_ascii_of_string (String c' r)).
  change (list_ascii_of_string (String c' r)) with (c' :: list_ascii_of_string r).
  change (last (c :: c' :: list_ascii_of_string r) c)
    with (last (c' :: list_ascii_of_string r) c).
  apply last_nonempty.
Qed.

Lemma hex_value_parity (s : string) :
  Spec.is_hex_numeral s = true ->
  Z.even (Spec.hex_value s) = Spec.ends_in_even_nibble s.
Proof.
  destruct s as [|c r]; [discriminate|].
  unfold Spec.is_hex_numeral, Spec.ends_in_even_nibble, Spec.hex_value.
  intros Hall. rewrite last_char_last.
  exact (hex_fold_parity (list_ascii_of_string r) 0 c Hall).
Qed.

Lemma even_mod2 (n : Z) : (if n mod 2 =? 0 then true else false) = Z.even n.
Proof. rewrite Zmod_even. now destruct (Z.even n). Qed.

(** ** The digest is 64 lower-case hexadecimal digits *)

Lemma hex_char_lower_hex (n : Z) : Spec.is_lower_hex (Hashlib.hex_char n) = true.
Proof.
  unfold Hashlib.hex_char.
  assert (H : (Z.to_nat (n mod 16) < 16)%nat).
  { pose proof (Z.mod_pos_bound n 16 ltac:(lia)). lia. }
  revert H. generalize (Z.to_nat (n mod 16)) as k. intros k H.
  do 16 (destruct k as [|k]; [reflexivity|]). lia.
Qed.

Lemma chars_app (s t : string) :
  list_ascii_of_string (s ++ t)
  = (list_ascii_of_string s ++ list_ascii_of_string t)%list.
Proof. induction s as [|c r IH]; simpl; [reflexivity | now rewrite IH]. Qed.

Lemma hex8_digest_part (w : Z) :
  String.length (Hashlib.hex8 w) = 8%nat
  /\ forallb Spec.is_lower_hex (list_ascii_of_string (Hashlib.hex8 w)) = true.
Proof.
  unfold Hashlib.hex8. split; [reflexivity|].
  rewrite list_ascii_of_string_of_list_ascii.
  cbn [map forallb]. now rewrite !hex_char_lower_hex.
Qed.

Lemma sha256_hexdigest_is_digest (msg : list byte) :
  Spec.is_digest (Hashlib.sha256_hexdigest msg) = true.
Proof.
  unfold Hashlib.sha256_hexdigest.
  destruct (Hashlib.digest_words msg) as [[[[[[[a b] c] d] e] f] g] h].
  unfold Spec.is_digest. apply andb_true_intro. split.
  - rewrite !app_length.
    now rewrite !(proj1 (hex8_digest_part _)).
  - rewrite !chars_app, !forallb_app.
    now rewrite !(proj2 (hex8_digest_part _)).
Qed.

Lemma forallb_take (P : ascii -> bool) (n : nat) (s : string) :
  forallb P (list_ascii_of_string s) = true ->
  forallb P (list_ascii_of_string (PyStr.take n s)) = true.
Proof.
  revert s; induction n as [|n IH]; intros [|c r] H; simpl in *; try reflexivity.
  apply andb_prop in H as [Hc Hr]. now rewrite Hc, IH.
Qed.

Lemma forallb_lower_hex_is_hex (l : list ascii) :
  forallb Spec.is_lower_hex l = true -> forallb Spec.is_hex_digit l = true.
Proof.
  induction l as [|c l IH]; simpl; [reflexivity|].
  intros H. apply andb_prop in H as [Hc Hl].
  now rewrite (lower_hex_is_hex_digit c Hc), IH.
Qed.

Lemma digest_is_hex_numeral (d : string) :
  Spec.is_digest d = true -> Spec.is_hex_numeral d = true.
Proof.
  unfold Spec.is_digest. intros H. apply andb_prop in H as [Hlen Hall].
  destruct d as [|c r]; [discriminate|].
  now apply forallb_lower_hex_is_hex.
Qed.

Lemma digest_prefix_is_hex_numeral (d : string) :
  Spec.is_digest d = true -> Spec.is_hex_numeral (PyStr.take 8 d) = true.
Proof.
  unfold Spec.is_digest. intros H. apply andb_prop in H as [Hlen Hall].
  destruct d as [|c r]; [discriminate|].
  change (Spec.is_hex_numeral (PyStr.take 8 (String c r)))
    with (forallb Spec.is_hex_digit
            (list_ascii_of_string (PyStr.take 8 (String c r)))).
  apply forallb_lower_hex_is_hex. now apply forallb_take.
Qed.

Lemma digest_length (d : string) :
  Spec.is_digest d = true -> String.length d = 64%nat.
Proof.
  unfold Spec.is_digest. intros H. apply andb_prop in H as [Hlen _].
  now apply Nat.eqb_eq.
Qed.

(** ** [endswith] after [lower] is a suffix test that ignores case *)

Lemma string_eqb_true (s t : string) : String.eqb s t = true <-> s = t.
Proof. apply String.eqb_eq. Qed.

Lemma endswith_lower_iff (name ext : string) :
  PyStr.endswith (PyStr.lower name) ext = true
  <-> Spec.ends_with_ignoring_case name ext.
Proof.
  unfold PyStr.endswith, Spec.ends_with_ignoring_case. split.
  - intros H. apply andb_prop in H as [Hlen Heq].
    apply string_eqb_true in Heq. rewrite lower_length in Heq.
    exists (PyStr.take (String.length name - String.length ext) name),
           (PyStr.drop (String.length name - String.length ext) name).
    split; [symmetry; apply take_drop|].
    now rewrite lower_drop.
  - intros (p & s & -> & <-).
    rewrite lower_app, app_length, !lower_length.
    apply andb_true_intro. split; [apply Nat.leb_le; lia|].
    replace (String.length p + String.length s - String.length s)%nat
      with (String.length (PyStr.lower p)) by (rewrite lower_length; lia).
    rewrite drop_app_length. apply String.eqb_refl.
Qed.

Lemma accepted_iff (name : string) :
  PyStr.endswith_any (PyStr.lower name) [".mp4"; ".avi"] = true
  <-> Spec.ends_with_ignoring_case name ".mp4"
      \/ Spec.ends_with_ignoring_case name ".avi".
Proof.
  unfold PyStr.endswith_any. cbn [existsb].
  rewrite orb_false_r, orb_true_iff, !endswith_lower_iff. reflexivity.
Qed.

(** ** The frame scores *)

Lemma in_range (n : nat) (z : Z) : 0 <= z < Z.of_nat n -> In z (PyNum.range n).
Proof.
  intros H. unfold PyNum.range.
  replace z with (Z.of_nat (Z.to_nat z)) by lia.
  apply in_map, in_seq. lia.
Qed.

Lemma pseudo_rand_residue (seed i : Z) :
  In (Main.pseudo_rand seed i) Table.residue_values.
Proof.
  unfold Main.pseudo_rand, Table.residue_values.
  apply (in_map (fun r => (PyNum.float_of_int r / 1000)%float)).
  apply in_range. apply Z.mod_pos_bound. lia.
Qed.

Lemma all_raw_in_range (pa pb : float) :
  In pa Table.residue_values -> In pb Table.residue_values ->
  Table.raw_in_range (Table.raw_of pa pb) = true.
Proof.
  assert (H : forallb (fun pa => forallb (fun pb => Table.raw_in_range (Table.raw_of pa pb))
                                         Table.residue_values)
                      Table.residue_values = true)
    by (vm_compute; reflexivity).
  intros Ha Hb.
  pose proof (proj1 (forallb_forall _ _) H pa Ha) as H1.
  exact (proj1 (forallb_forall _ _) H1 pb Hb).
Qed.

Lemma raw_confidence_in_range (seed i : Z) :
  Table.raw_in_range (Main.raw_confidence seed i) = true.
Proof.
  exact (all_raw_in_range _ _ (pseudo_rand_residue seed i)
                          (pseudo_rand_residue seed (i / 3))).
Qed.

Lemma raw_confidence_spec (seed i : Z) : Main.raw_confidence seed i = Spec.raw seed i.
Proof. reflexivity. Qed.

(** On the values that occur, [max(0.0, min(1.0, conf))] leaves [conf]
    as it is, and so does the specification's clamp. *)
Lemma clamp_identity (seed i : Z) :
  PyNum.max2 0 (PyNum.min2 1 (Main.raw_confidence seed i)) = Main.raw_confidence seed i
  /\ Spec.clamp (Main.raw_confidence seed i) 0 1 = Main.raw_confidence seed i.
Proof.
  pose proof (raw_confidence_in_range seed i) as H.
  unfold Table.raw_in_range in H.
  repeat (let H' := fresh "H" in apply andb_prop in H as [H H']).
  set (r := Main.raw_confidence seed i) in *.
  apply negb_true_iff in H0, H1.
  unfold PyNum.max2, PyNum.min2, Spec.clamp.
  now rewrite H2, H3, H0, H1.
Qed.

(** ** The order of binary64 numbers is the order of their values *)

Lemma digits2_bounds (m : positive) :
  2 ^ (Z.pos (digits2_pos m) - 1) <= Z.pos m < 2 ^ Z.pos (digits2_pos m).
Proof.
  induction m as [p IH|p IH|]; cbn [digits2_pos];
    try (rewrite Pos2Z.inj_succ;
         replace (Z.succ (Z.pos (digits2_pos p)) - 1)
           with (Z.succ (Z.pos (digits2_pos p) - 1)) by lia;
         rewrite !Z.pow_succ_r by lia; lia).
  cbn. lia.
Qed.

Lemma bounded_mantissa (m : positive) (e : Z) :
  bounded prec emax m e = true ->
  Z.pos m < 2 ^ 53 /\ -1074 <= e /\ (-1074 < e -> 2 ^ 52 <= Z.pos m).
Proof.
  unfold bounded, canonical_mantissa, fexp, SpecFloat.emin, prec, emax.
  intros H. apply andb_prop in H as [H _]. apply Z.eqb_eq in H.
  pose proof (digits2_bounds m) as [Hlo Hhi].
  set (d := Z.pos (digits2_pos m)) in *.
  assert (Hd : d <= 53) by lia.
  split; [|split].
  - apply Z.lt_le_trans with (2 ^ d); [assumption|].
    apply Z.pow_le_mono_r; lia.
  - lia.
  - intros He. assert (d = 53) as Hd53 by lia.
    rewrite Hd53 in Hlo. exact Hlo.
Qed.

Lemma Qpower2_split (e1 e2 : Z) :
  e1 <= e2 -> (Qpower 2 e2 == inject_Z (2 ^ (e2 - e1)) * Qpower 2 e1)%Q.
Proof.
  intros H. rewrite Zpower_Qpower by lia.
  rewrite <- Qpower_plus by discriminate.
  now replace (e2 - e1 + e1) with e2 by lia.
Qed.

Lemma scaled_le (m1 m2 : positive) (e1 e2 : Z) :
  e1 <= e2 -> Z.pos m1 <= Z.pos m2 * 2 ^ (e2 - e1) ->
  (inject_Z (Z.pos m1) * Qpower 2 e1 <= inject_Z (Z.pos m2) * Qpower 2 e2)%Q.
Proof.
  intros He Hm. rewrite (Qpower2_split e1 e2 He), Qmult_assoc, <- inject_Z_mult.
  apply Qmult_le_compat_r.
  - now rewrite <- Zle_Qle.
  - apply Qpower_0_le. discriminate.
Qed.

Lemma smaller_exponent_lt (m1 m2 : positive) (e1 e2 : Z) :
  bounded prec emax m1 e1 = true -> bounded prec emax m2 e2 = true ->
  e1 < e2 -> Z.pos m1 < Z.pos m2 * 2 ^ (e2 - e1).
Proof.
  intros B1 B2 He.
  destruct (bounded_mantissa m1 e1 B1) as (Hm1 & Hemin & _).
  destruct (bounded_mantissa m2 e2 B2) as (_ & _ & Hm2).
  specialize (Hm2 ltac:(lia)).
  assert (2 ^ 1 <= 2 ^ (e2 - e1)) by (apply Z.pow_le_mono_r; lia).
  change (2 ^ 1) with 2 in *. change (2 ^ 53) with (2 ^ 52 * 2) in Hm1.
  nia.
Qed.

Lemma SFleb_value (m1 m2 : positive) (e1 e2 : Z) :
  bounded prec emax m1 e1 = true -> bounded prec emax m2 e2 = true ->
  SFleb (S754_finite false m1 e1) (S754_finite false m2 e2) = true ->
  (PyNum.Q_of_spec_float (S754_finite false m1 e1)
   <= PyNum.Q_of_spec_float (S754_finite false m2 e2))%Q.
Proof.
  intros B1 B2. unfold SFleb, SFcompare, PyNum.Q_of_spec_float.
  destruct (Z.compare_spec e1 e2) as [He|He|He].
  - subst e2. change (Pos.compare_cont Eq m1 m2) with (m1 ?= m2)%positive.
    destruct (Pos.compare_spec m1 m2) as [Hm|Hm|Hm]; intros H; try discriminate H;
      apply scaled_le; rewrite ?Z.sub_diag, ?Z.pow_0_r; lia.
  - intros _. apply scaled_le; [lia|].
    apply Z.lt_le_incl. now apply smaller_exponent_lt.
  - discriminate.
Qed.

(** A float between two positive finite floats is positive and finite. *)
Lemma between_positive_finite (lo hi x : float) (ml mh : positive) (el eh : Z) :
  Prim2SF lo = S754_finite false ml el ->
  Prim2SF hi = S754_finite false mh eh ->
  PrimFloat.leb lo x = true -> PrimFloat.leb x hi = true ->
  exists m e, Prim2SF x = S754_finite false m e.
Proof.
  intros Hlo Hhi H1 H2. rewrite leb_spec in H1, H2.
  rewrite Hlo in H1. rewrite Hhi in H2.
  destruct (Prim2SF x) as [[|]|[|]| |[|] m e]; cbn in H1, H2;
    try discriminate H1; try discriminate H2.
  eauto.
Qed.

Lemma float_leb_value (x y : float) (m1 m2 : positive) (e1 e2 : Z) :
  Prim2SF x = S754_finite false m1 e1 ->
  Prim2SF y = S754_finite false m2 e2 ->
  PrimFloat.leb x y = true -> (PyNum.Q_of_float x <= PyNum.Q_of_float y)%Q.
Proof.
  intros Hx Hy H. unfold PyNum.Q_of_float.
  pose proof (Prim2SF_valid x) as Vx. pose proof (Prim2SF_valid y) as Vy.
  rewrite leb_spec in H. rewrite Hx in *. rewrite Hy in *.
  now apply SFleb_value.
Qed.

(** What the finite checks compare with: a float from 0.5 to 2047/2048
    has a value from 1/2 to 2047/2048. *)
Lemma in_range_value (x : float) :
  PrimFloat.leb 0.5 x = true -> PrimFloat.leb x 0.99951171875 = true ->
  (1 # 2 <= PyNum.Q_of_float x <= 2047 # 2048)%Q.
Proof.
  intros H1 H2.
  assert (Hlo : Prim2SF 0.5 = S754_finite false 4503599627370496 (-53))
    by (vm_compute; reflexivity).
  assert (Hhi : Prim2SF 0.99951171875 = S754_finite false 9002801208229888 (-53))
    by (vm_compute; reflexivity).
  destruct (between_positive_finite _ _ x _ _ _ _ Hlo Hhi H1 H2) as (m & e & Hx).
  pose proof (float_leb_value _ _ _ _ _ _ Hlo Hx H1) as L1.
  pose proof (float_leb_value _ _ _ _ _ _ Hx Hhi H2) as L2.
  split.
  - eapply Qle_trans; [|exact L1]. vm_compute. discriminate.
  - eapply Qle_trans; [exact L2|]. vm_compute. discriminate.
Qed.

(** ** The loop, the sum and the handler *)

Lemma fold_left_append_map {A B : Type} (f : A -> B) (l : list A) (init : list B) :
  fold_left (fun acc a => (acc ++ [f a])%list) l init = (init ++ map f l)%list.
Proof.
  revert init; induction l as [|a l IH]; intros init; simpl.
  - now rewrite app_nil_r.
  - rewrite IH, <- app_assoc. reflexivity.
Qed.

Lemma confidence_spec (seed i : Z) :
  PyNum.max2 0 (PyNum.min2 1 (Main.raw_confidence seed i)) = Spec.confidence seed i.
Proof.
  destruct (clamp_identity seed i) as [H1 H2].
  transitivity (Main.raw_confidence seed i); [exact H1 | symmetry; exact H2].
Qed.

(** The loop of [analyze_media] emits the sequence of section 4.2. *)
Lemma score_frames_generate (seed : Z) :
  Main.score_frames seed = Spec.generate seed 60.
Proof.
  unfold Main.score_frames, Spec.generate, Main.total_frames.
  rewrite (fold_left_append_map
             (fun i => [("frame_index", Py.VInt i);
                        ("confidence",
                         Py.VFloat (PyNum.max2 0 (PyNum.min2 1 (Main.raw_confidence seed i))))])).
  cbn [app]. apply map_ext. intros i. unfold Spec.frame_score.
  now rewrite confidence_spec.
Qed.

Lemma mapM_confidence (f : Z -> float) (l : list Z) (log : list Py.event) :
  Py.mapM Main.confidence (map (fun i => Spec.frame_score i (f i)) l) log
  = (Py.Returns (map f l), log).
Proof.
  induction l as [|i l IH]; [reflexivity|].
  cbn [map Py.mapM]. unfold Py.bind at 1.
  change (Main.confidence (Spec.frame_score i (f i)) log)
    with (Py.Returns (f i), log).
  unfold Py.bind at 1. rewrite IH. reflexivity.
Qed.

Lemma likelihood_generate (alg : PyNum.sum_algorithm) (seed : Z)
      (log : list Py.event) :
  Main.likelihood alg (Spec.generate seed 60) log
  = (Py.Returns (Spec.mean alg (Spec.confidences seed 60)), log).
Proof.
  unfold Main.likelihood, Spec.generate, Py.bind.
  rewrite (mapM_confidence (Spec.confidence seed)).
  unfold Py.ret, Spec.mean, Spec.confidences.
  rewrite length_map. reflexivity.
Qed.

Lemma pseudoRand_mod (seed i : Z) :
  Spec.pseudoRand seed i = Spec.pseudoRand (seed mod 1000) i.
Proof. unfold Spec.pseudoRand. now rewrite Z.mul_mod_idemp_l by lia. Qed.

Lemma confidences_mod (seed : Z) (n : nat) :
  Spec.confidences seed n = Spec.confidences (seed mod 1000) n.
Proof.
  unfold Spec.confidences. apply map_ext. intros i.
  unfold Spec.confidence, Spec.raw.
  now rewrite (pseudoRand_mod seed i), (pseudoRand_mod seed (i / 3)).
Qed.

Lemma all_likelihoods_in_range (alg : PyNum.sum_algorithm) (seed : Z) :
  In seed (PyNum.range 1000) -> Table.likelihood_in_range alg seed = true.
Proof.
  assert (H : forall alg,
             forallb (Table.likelihood_in_range alg) (PyNum.range 1000) = true)
    by (intros []; vm_compute; reflexivity).
  exact (proj1 (forallb_forall _ _) (H alg) seed).
Qed.

Lemma likelihood_in_range (alg : PyNum.sum_algorithm) (seed : Z) :
  let l := Spec.mean alg (Spec.confidences seed 60) in
  PrimFloat.leb 0.5 l = true /\ PrimFloat.leb l 0.99951171875 = true
  /\ Table.mean_is_close l (Spec.confidences seed 60) = true.
Proof.
  cbv zeta. rewrite confidences_mod.
  pose proof (all_likelihoods_in_range alg (seed mod 1000)
                (in_range 1000 _ (Z.mod_pos_bound seed 1000 ltac:(lia)))) as H.
  unfold Table.likelihood_in_range in H.
  apply andb_prop in H as [H H3]. apply andb_prop in H as [H1 H2]. auto.
Qed.




(** What [analyze_media] does with an accepted file name: it reads the
    file, hashes it, reads the clock, offers the job document to the
    store once, and returns the analysis of section 4.5. *)
Lemma analyze_media_accepted (env : Main.Env) (file : UploadFile.t) :
  PyStr.endswith_any (PyStr.lower (UploadFile.filename file)) [".mp4"; ".avi"] = true ->
  let alg := Main.sum_algorithm env in
  let doc := Spec.job_document alg file (Main.now env) in
  Py.run (Main.analyze_media env file)
  = (Py.Returns
       (Spec.analysis alg file (Main.now env)
          match Main.create_document env "analysisjob" doc with
          | Py.Returns id => id
          | Py.Raises _ => "temporary"
          end),
     [ Py.FileRead (UploadFile.filename file);
       Py.Sha256 (UploadFile.content file);
       Py.DatetimeNow;
       Py.CreateDocument "analysisjob" doc ]).
Proof.
  intros Hext alg doc.
  pose proof (sha256_hexdigest_is_digest (UploadFile.content file)) as Hd.
  unfold Py.run, Main.analyze_media. rewrite Hext. cbn [negb].
  unfold Py.bind at 1. unfold Py.call at 1. cbn [app].
  unfold Py.bind at 1. unfold Py.call at 1. cbn [app].
  set (digest := Hashlib.sha256_hexdigest (UploadFile.content file)) in *.
  unfold Py.bind at 1. unfold Py.int16 at 1.
  rewrite (int16_hex_numeral _ (digest_prefix_is_hex_numeral _ Hd)).
  unfold Py.ret at 1.
  rewrite score_frames_generate.
  unfold Py.bind at 1. rewrite likelihood_generate.
  unfold Py.bind at 1. unfold Py.call at 1. cbn [app].
  unfold Py.bind at 1, Py.try_except, Py.call at 1. cbn [app].
  fold (Spec.seed digest).
  change (Spec.mean (Main.sum_algorithm env) (Spec.confidences (Spec.seed digest) 60))
    with (Spec.likelihood alg digest).
  assert (Hn : Py.int16 digest = Py.ret (Spec.hex_value digest)).
  { unfold Py.int16. now rewrite (int16_hex_numeral _ (digest_is_hex_numeral _ Hd)). }
  assert (Htake : PyStr.take 64 digest = digest).
  { apply take_all. rewrite (digest_length _ Hd). lia. }
  unfold doc, Spec.job_document. fold digest.
  destruct (Main.create_document env "analysisjob" _) as [id|e];
    unfold Py.ret at 1; unfold Py.bind; rewrite Hn; unfold Py.ret;
    rewrite Htake, even_mod2; reflexivity.
Qed.

(** ** [verify_media] *)

Lemma verify_media_returns (env : Main.Env) (payload : VerifyRequest.t) (n : Z) :
  let fh := PyStr.lower (VerifyRequest.filehash payload) in
  PyStr.int16 fh = Some n ->
  Py.run (Main.verify_media env payload)
  = (Py.Returns
       [ ("filehash", Py.VStr fh);
         ("contract_address", Py.VStr Main.contract_address);
         ("tx_hash", Py.VStr ("0x" ++ PyStr.take 64 fh));
         ("network", Py.VStr "ethereum");
         ("verified", Py.VBool (Z.even n));
         ("timestamp", Py.VStr (Datetime.isoformat (Main.now env))) ],
     [Py.DatetimeNow]).
Proof.
  intros fh Hn. unfold Py.run, Main.verify_media, Py.bind, Py.int16.
  fold fh. rewrite Hn. unfold Py.ret, Py.call. cbn [app].
  now rewrite even_mod2.
Qed.

Lemma verify_media_raises (env : Main.Env) (payload : VerifyRequest.t) :
  PyStr.int16 (PyStr.lower (VerifyRequest.filehash payload)) = None ->
  Py.run (Main.verify_media env payload)
  = (Py.Raises (Py.ValueError "invalid literal for int() with base 16"), []).
Proof.
  intros Hn. unfold Py.run, Main.verify_media, Py.bind, Py.int16.
  now rewrite Hn.
Qed.

Lemma verify_media_inversion (env : Main.Env) (payload : VerifyRequest.t)
      (record : Py.dict) (log : list Py.event) :
  Py.run (Main.verify_media env payload) = (Py.Returns record, log) ->
  exists n, PyStr.int16 (PyStr.lower (VerifyRequest.filehash payload)) = Some n.
Proof.
  intros H.
  destruct (PyStr.int16 (PyStr.lower (VerifyRequest.filehash payload))) as [n|] eqn:E.
  - eauto.
  - rewrite (verify_media_raises env payload E) in H. discriminate H.
Qed.

(** * The claims *)

Lemma accepted_clip_mp4 :
  PyStr.endswith_any (PyStr.lower (UploadFile.filename Example.clip_mp4))
                     [".mp4"; ".avi"] = true.
Proof. reflexivity. Qed.

(** C1. For every uploaded byte sequence (under an accepted file name)
    [analyze_media] hashes exactly these bytes with SHA-256, takes as seed
    the base-16 value of the first 8 characters of the hex digest, and
    returns 60 frame scores: the score of index [i], for [i] = 0, 1, ...,
    59 in this order, carries the confidence
    [clamp(0.5 + 0.5 * ((pseudoRand(i) + pseudoRand(i div 3)) / 2), 0, 1)]
    with [pseudoRand(i) = ((seed * (i + 73)) mod 1000) / 1000.0], all in
    binary64 arithmetic. *)
Theorem C1_analyze_frame_scores (env : Main.Env) (file : UploadFile.t) :
  PyStr.endswith_any (PyStr.lower (UploadFile.filename file)) [".mp4"; ".avi"] = true ->
  let digest := Hashlib.sha256_hexdigest (UploadFile.content file) in
  exists response log,
    Py.run (Main.analyze_media env file) = (Py.Returns response, log)
    /\ In (Py.Sha256 (UploadFile.content file)) log
    /\ PyStr.int16 (PyStr.take 8 digest) = Some (Spec.seed digest)
    /\ AnalyzeResponse.frame_scores response
       = map (fun i =>
                [ ("frame_index", Py.VInt i);
                  ("confidence",
                   Py.VFloat
                     (Spec.clamp
                        (0.5 + 0.5 * ((Spec.pseudoRand (Spec.seed digest) i
                                       + Spec.pseudoRand (Spec.seed digest) (i / 3)) / 2))
                        0 1)) ])
             (PyNum.range 60)
    /\ map (fun s => Py.dict_get s "frame_index")
           (AnalyzeResponse.frame_scores response)
       = map (fun i => Some (Py.VInt i)) (PyNum.range 60).
Proof.
  intros Hext digest.
  pose proof (analyze_media_accepted env file Hext) as Hrun. cbv zeta in Hrun.
  eexists. eexists. split; [exact Hrun|].
  split; [right; left; reflexivity|].
  split.
  - apply int16_hex_numeral, digest_prefix_is_hex_numeral,
      sha256_hexdigest_is_digest.
  - cbn [Spec.analysis AnalyzeResponse.frame_scores]. fold digest.
    split; [reflexivity|].
    unfold Spec.generate. rewrite map_map. reflexivity.
Qed.

Lemma C1_analyze_frame_scores_witness :
  exists response log,
    Py.run (Main.analyze_media Example.env_up Example.clip_mp4)
    = (Py.Returns response, log)
    /\ List.length (AnalyzeResponse.frame_scores response) = 60%nat
    /\ nth_error (AnalyzeResponse.frame_scores response) 0
       = Some [("frame_index", Py.VInt 0); ("confidence", Py.VFloat 0.6435)].
Proof.
  destruct (C1_analyze_frame_scores Example.env_up Example.clip_mp4
              accepted_clip_mp4)
    as (response & log & Hrun & _ & _ & Hscores & _).
  exists response, log. split; [exact Hrun|].
  rewrite Hscores. split; [reflexivity | vm_compute; reflexivity].
Defined.

(** C2. For every analyze request with an accepted file name the request
    returns, whatever the store does, and the response is fully
    populated: [filename] is the name of the upload, [accuracy] is 0.95,
    [frame_scores] are the 60 scores of the digest, [deepfake_likelihood]
    is their mean, [analyzed_at] is the clock reading, and [verification]
    is the record of the digest with its five entries.  When the store's
    [create_document] raises, whatever the exception, [job_id] is the
    fixed string ["temporary"]; when it returns an identifier, [job_id] is
    that identifier; and under any other behaviour of the store (same
    clock, same runtime) every field other than [job_id] is the same. *)
Theorem C2_persistence_failure_sentinel (env : Main.Env) (file : UploadFile.t) :
  PyStr.endswith_any (PyStr.lower (UploadFile.filename file)) [".mp4"; ".avi"] = true ->
  let alg := Main.sum_algorithm env in
  let digest := Hashlib.sha256_hexdigest (UploadFile.content file) in
  let doc := Spec.job_document alg file (Main.now env) in
  exists response log,
    Py.run (Main.analyze_media env file) = (Py.Returns response, log)
    /\ (forall e, Main.create_document env "analysisjob" doc = Py.Raises e ->
                  AnalyzeResponse.job_id response = "temporary")
    /\ (forall id, Main.create_document env "analysisjob" doc = Py.Returns id ->
                   AnalyzeResponse.job_id response = id)
    /\ AnalyzeResponse.verification response <> None
    /\ (forall env',
          Main.sum_algorithm env' = Main.sum_algorithm env ->
          Main.now env' = Main.now env ->
          exists response' log',
            Py.run (Main.analyze_media env' file) = (Py.Returns response', log')
            /\ Spec.same_but_job_id response response')
    /\ AnalyzeResponse.filename response = UploadFile.filename file
    /\ AnalyzeResponse.accuracy response = 0.95%float
    /\ AnalyzeResponse.frame_scores response = Spec.generate (Spec.seed digest) 60
    /\ List.length (AnalyzeResponse.frame_scores response) = 60%nat
    /\ AnalyzeResponse.deepfake_likelihood response
       = Spec.mean alg (map Spec.confidence_of (AnalyzeResponse.frame_scores response))
    /\ AnalyzeResponse.analyzed_at response = Main.now env
    /\ (exists record,
          AnalyzeResponse.verification response = Some record
          /\ record = Spec.verification digest (Main.now env)
          /\ Py.keys record
             = ["contract_address"; "tx_hash"; "network"; "verified"; "timestamp"])
    /\ response
       = Spec.analysis alg file (Main.now env) (AnalyzeResponse.job_id response).
Proof.
  intros Hext alg digest doc.
  pose proof (analyze_media_accepted env file Hext) as Hrun. cbv zeta in Hrun.
  eexists. eexists. split; [exact Hrun|].
  cbn [Spec.analysis AnalyzeResponse.job_id AnalyzeResponse.verification
       AnalyzeResponse.filename AnalyzeResponse.accuracy
       AnalyzeResponse.frame_scores AnalyzeResponse.deepfake_likelihood
       AnalyzeResponse.analyzed_at].
  fold alg digest doc.
  split; [intros e He; now rewrite He|].
  split; [intros id Hid; now rewrite Hid|].
  split; [discriminate|].
  split.
  { intros env' Halg Hnow.
    pose proof (analyze_media_accepted env' file Hext) as Hrun'. cbv zeta in Hrun'.
    eexists. eexists. split; [exact Hrun'|].
    rewrite Halg, Hnow. unfold Spec.same_but_job_id, Spec.analysis.
    cbn. repeat split; reflexivity. }
  split; [reflexivity|]. split; [reflexivity|]. split; [reflexivity|].
  split; [unfold Spec.generate, PyNum.range; now rewrite !length_map, length_seq|].
  split.
  { unfold Spec.likelihood, Spec.confidences, Spec.generate.
    rewrite map_map. reflexivity. }
  split; [reflexivity|].
  split; [eexists; split; [reflexivity|]; split; reflexivity|].
  reflexivity.
Qed.

Lemma C2_persistence_failure_sentinel_witness :
  exists response log,
    Py.run (Main.analyze_media Example.env_down Example.clip_mp4)
    = (Py.Returns response, log)
    /\ AnalyzeResponse.job_id response = "temporary"
    /\ AnalyzeResponse.filename response = "Clip.MP4"
    /\ List.length (AnalyzeResponse.frame_scores response) = 60%nat
    /\ exists response' log',
         Py.run (Main.analyze_media Example.env_up Example.clip_mp4)
         = (Py.Returns response', log')
         /\ AnalyzeResponse.job_id response' = "664723f0a1b2c3d4e5f60718"
         /\ Spec.same_but_job_id response response'.
Proof.
  destruct (C2_persistence_failure_sentinel Example.env_down Example.clip_mp4
              accepted_clip_mp4)
    as (response & log & Hrun & Hdown & _ & _ & Hsame & Hname & _ & _ & Hlen & _).
  exists response, log. split; [exact Hrun|].
  split; [exact (Hdown _ eq_refl)|].
  split; [exact Hname|]. split; [exact Hlen|].
  destruct (Hsame Example.env_up eq_refl eq_refl) as (response' & log' & Hrun' & Heq).
  exists response', log'. split; [exact Hrun'|]. split; [|exact Heq].
  destruct (C2_persistence_failure_sentinel Example.env_up Example.clip_mp4
              accepted_clip_mp4)
    as (r & l & Hr & _ & Hup & _).
  rewrite Hrun' in Hr. injection Hr as <- _. exact (Hup _ eq_refl).
Defined.

(** C3. The [verified] flag of the verification record is true exactly
    when the digest, read as one base-16 integer, is even, which is
    exactly when its last character denotes an even nibble; this holds
    for the digest [analyze_media] computes and for every hexadecimal
    numeral a caller hands to [verify_media]. *)
Theorem C3_verified_is_parity (env : Main.Env) (file : UploadFile.t)
        (payload : VerifyRequest.t) :
  PyStr.endswith_any (PyStr.lower (UploadFile.filename file)) [".mp4"; ".avi"] = true ->
  Spec.is_hex_numeral (VerifyRequest.filehash payload) = true ->
  let digest := Hashlib.sha256_hexdigest (UploadFile.content file) in
  let fh := VerifyRequest.filehash payload in
  (exists response log verification,
      Py.run (Main.analyze_media env file) = (Py.Returns response, log)
      /\ AnalyzeResponse.verification response = Some verification
      /\ Py.dict_get verification "verified"
         = Some (Py.VBool (Z.even (Spec.hex_value digest)))
      /\ Z.even (Spec.hex_value digest) = Spec.ends_in_even_nibble digest)
  /\ (exists record log,
         Py.run (Main.verify_media env payload) = (Py.Returns record, log)
         /\ Py.dict_get record "verified"
            = Some (Py.VBool (Z.even (Spec.hex_value fh)))
         /\ Z.even (Spec.hex_value fh) = Spec.ends_in_even_nibble fh).
Proof.
  intros Hext Hhex digest fh. split.
  - pose proof (analyze_media_accepted env file Hext) as Hrun. cbv zeta in Hrun.
    eexists. eexists. eexists. split; [exact Hrun|].
    split; [reflexivity|]. split; [reflexivity|].
    apply hex_value_parity, digest_is_hex_numeral, sha256_hexdigest_is_digest.
  - assert (Hn : PyStr.int16 (PyStr.lower fh) = Some (Spec.hex_value fh)).
    { rewrite <- hex_value_lower. apply int16_hex_numeral.
      now rewrite hex_numeral_lower. }
    eexists. eexists.
    split; [exact (verify_media_returns env payload _ Hn)|].
    split; [reflexivity|].
    now apply hex_value_parity.
Qed.

Lemma C3_verified_is_parity_witness :
  (exists response log verification,
      Py.run (Main.analyze_media Example.env_up Example.clip_mp4)
      = (Py.Returns response, log)
      /\ AnalyzeResponse.verification response = Some verification
      /\ Py.dict_get verification "verified" = Some (Py.VBool false))
  /\ (exists record log,
         Py.run (Main.verify_media Example.env_up Example.digest_abc)
         = (Py.Returns record, log)
         /\ Py.dict_get record "verified" = Some (Py.VBool false)).
Proof.
  destruct (C3_verified_is_parity Example.env_up Example.clip_mp4
              Example.digest_abc accepted_clip_mp4 eq_refl)
    as [(response & log & v & Hrun & Hv & Hflag & Hlast)
        (record & log' & Hrun' & Hflag' & Hlast')].
  split.
  - exists response, log, v.
    split; [exact Hrun|]. split; [exact Hv|].
    rewrite Hflag, Hlast. reflexivity.
  - exists record, log'. split; [exact Hrun'|].
    rewrite Hflag', Hlast'. reflexivity.
Defined.


Lemma half_to_one_value (x : float) :
  PrimFloat.leb 0.5 x = true -> PrimFloat.leb x 0.99951171875 = true ->
  (1 # 2 <= PyNum.Q_of_float x)%Q /\ (PyNum.Q_of_float x < 1)%Q.
Proof.
  intros H1 H2. destruct (in_range_value x H1 H2) as [L U]. split; [exact L|].
  eapply Qle_lt_trans; [exact U | reflexivity].
Qed.



(** C5. [verify_media] lower-cases the digest it is given, and when
    [int(fh, 16)] does not accept the lower-cased string the handler ends
    with the [ValueError] of that conversion: it raises no
    [HTTPException]; the exception leaves the handler unhandled, before
    the clock is read. *)
Theorem C5_malformed_digest_raises_ValueError
        (env : Main.Env) (payload : VerifyRequest.t) :
  PyStr.int16 (PyStr.lower (VerifyRequest.filehash payload)) = None ->
  Py.run (Main.verify_media env payload)
  = (Py.Raises (Py.ValueError "invalid literal for int() with base 16"), [])
  /\ forall status detail,
       fst (Py.run (Main.verify_media env payload))
       <> Py.Raises (Py.HTTPException status detail).
Proof.
  intros Hn. rewrite (verify_media_raises env payload Hn).
  split; [reflexivity | discriminate].
Qed.

Lemma C5_malformed_digest_raises_ValueError_witness :
  Py.run (Main.verify_media Example.env_up Example.malformed)
  = (Py.Raises (Py.ValueError "invalid literal for int() with base 16"), []).
Proof.
  exact (proj1 (C5_malformed_digest_raises_ValueError
                  Example.env_up Example.malformed eq_refl)).
Defined.

(** C6. For every analyze request whose file name ends neither in
    [.mp4] nor in [.avi] when case is ignored, [analyze_media] raises
    [HTTPException] with status 400 before it has made any call: the
    payload is not read, nothing is hashed, the clock is not read and the
    store is not called. *)
Theorem C6_unsupported_extension_rejected (env : Main.Env) (file : UploadFile.t) :
  ~ Spec.ends_with_ignoring_case (UploadFile.filename file) ".mp4" ->
  ~ Spec.ends_with_ignoring_case (UploadFile.filename file) ".avi" ->
  Py.run (Main.analyze_media env file)
  = (Py.Raises (Py.HTTPException 400 "Only MP4 or AVI files are supported"), []).
Proof.
  intros Hmp4 Havi. unfold Py.run, Main.analyze_media.
  destruct (PyStr.endswith_any (PyStr.lower (UploadFile.filename file))
                               [".mp4"; ".avi"]) eqn:E.
  - apply accepted_iff in E. tauto.
  - reflexivity.
Qed.

Lemma C6_unsupported_extension_rejected_witness :
  Py.run (Main.analyze_media Example.env_up Example.clip_mov)
  = (Py.Raises (Py.HTTPException 400 "Only MP4 or AVI files are supported"), []).
Proof.
  apply (C6_unsupported_extension_rejected Example.env_up Example.clip_mov).
  - intros H. apply endswith_lower_iff in H. discriminate H.
  - intros H. apply endswith_lower_iff in H. discriminate H.
Defined.

(** C7, as the specification states it, fails: for a hexadecimal numeral
    of 65 digits the record's [tx_hash] is not ["0x"] followed by the
    whole lower-cased numeral. *)
Lemma C7_tx_hash_counterexample :
  ~ (forall record log,
        Py.run (Main.verify_media Example.env_up Example.long_numeral)
        = (Py.Returns record, log) ->
        Py.dict_get record "tx_hash"
        = Some (Py.VStr ("0x" ++ PyStr.lower
                                   (VerifyRequest.filehash Example.long_numeral)))).
Proof.
  intros H.
  specialize (H _ _ (verify_media_returns Example.env_up Example.long_numeral _ eq_refl)).
  discriminate H.
Qed.

(** C7, amended. For every string [verify_media] accepts, the record's
    [tx_hash] is ["0x"] followed by the first 64 characters of the
    lower-cased string, which is the whole lower-cased string when it has
    at most 64 characters; [filehash] is the lower-cased string,
    [network] is ["ethereum"] and [contract_address] is one fixed
    string. *)
Theorem C7_tx_hash_prefixes_first_64
        (env : Main.Env) (payload : VerifyRequest.t)
        (record : Py.dict) (log : list Py.event) :
  Py.run (Main.verify_media env payload) = (Py.Returns record, log) ->
  let fh := PyStr.lower (VerifyRequest.filehash payload) in
  Py.dict_get record "tx_hash" = Some (Py.VStr ("0x" ++ PyStr.take 64 fh))
  /\ ((String.length (VerifyRequest.filehash payload) <= 64)%nat ->
      Py.dict_get record "tx_hash" = Some (Py.VStr ("0x" ++ fh)))
  /\ Py.dict_get record "filehash" = Some (Py.VStr fh)
  /\ Py.dict_get record "network" = Some (Py.VStr "ethereum")
  /\ Py.dict_get record "contract_address"
     = Some (Py.VStr "0xDeePTrAce00000000000000000000000000000001").
Proof.
  intros Hrun fh.
  destruct (verify_media_inversion env payload record log Hrun) as [n Hn].
  rewrite (verify_media_returns env payload n Hn) in Hrun.
  injection Hrun as <- _. fold fh.
  split; [reflexivity|]. split; [|repeat split; reflexivity].
  intros Hlen.
  change (Some (Py.VStr ("0x" ++ PyStr.take 64 fh)) = Some (Py.VStr ("0x" ++ fh))).
  rewrite take_all; [reflexivity|].
  unfold fh. now rewrite lower_length.
Qed.

Lemma C7_tx_hash_prefixes_first_64_witness :
  exists record log,
    Py.run (Main.verify_media Example.env_up Example.long_numeral)
    = (Py.Returns record, log)
    /\ Py.dict_get record "tx_hash"
       = Some (Py.VStr "0xba7816bf8f01cfea414140de5dae2223b00361a396177a9cb410ff61f20015ad").
Proof.
  eexists. eexists. split.
  - exact (verify_media_returns Example.env_up Example.long_numeral _ eq_refl).
  - exact (proj1 (C7_tx_hash_prefixes_first_64 Example.env_up Example.long_numeral _ _
                    (verify_media_returns Example.env_up Example.long_numeral _ eq_refl))).
Defined.

(** C8, as the specification states it, fails: the document a successful
    request writes to the collection ["analysisjob"] has no
    [verification] entry. *)
Lemma C8_persisted_record_counterexample :
  ~ (forall doc,
        In (Py.CreateDocument "analysisjob" doc)
           (snd (Py.run (Main.analyze_media Example.env_up Example.clip_mp4))) ->
        Py.dict_get doc "verification" <> None).
Proof.
  intros H.
  pose proof (analyze_media_accepted Example.env_up Example.clip_mp4
                accepted_clip_mp4) as Hrun.
  cbv zeta in Hrun. rewrite Hrun in H. cbn [snd] in H.
  apply (H _ (or_intror (or_intror (or_intror (or_introl eq_refl))))).
  reflexivity.
Qed.

(** C8, amended. For every successful analyze request the handler makes
    one call to the store, for the collection ["analysisjob"], with a
    document of exactly nine entries: [filename], [filesize], [filehash],
    [status], [accuracy], [deepfake_likelihood], [model], [frame_scores]
    and [analyzed_at].  The file name, accuracy, likelihood, frame scores
    and time are those of the response, the size and digest are those of
    the payload; the document has no [verification] entry, and the
    identifier the store returns is the response's [job_id]. *)
Theorem C8_persisted_record (env : Main.Env) (file : UploadFile.t) :
  PyStr.endswith_any (PyStr.lower (UploadFile.filename file)) [".mp4"; ".avi"] = true ->
  exists response doc,
    Py.run (Main.analyze_media env file)
    = (Py.Returns response,
       [ Py.FileRead (UploadFile.filename file);
         Py.Sha256 (UploadFile.content file);
         Py.DatetimeNow;
         Py.CreateDocument "analysisjob" doc ])
    /\ Py.keys doc
       = [ "filename"; "filesize"; "filehash"; "status"; "accuracy";
           "deepfake_likelihood"; "model"; "frame_scores"; "analyzed_at" ]
    /\ Py.dict_get doc "filename"
       = Some (Py.VStr (AnalyzeResponse.filename response))
    /\ Py.dict_get doc "filesize"
       = Some (Py.VInt (Z.of_nat (List.length (UploadFile.content file))))
    /\ Py.dict_get doc "filehash"
       = Some (Py.VStr (Hashlib.sha256_hexdigest (UploadFile.content file)))
    /\ Py.dict_get doc "status" = Some (Py.VStr "completed")
    /\ Py.dict_get doc "accuracy"
       = Some (Py.VFloat (AnalyzeResponse.accuracy response))
    /\ Py.dict_get doc "deepfake_likelihood"
       = Some (Py.VFloat (AnalyzeResponse.deepfake_likelihood response))
    /\ Py.dict_get doc "model" = Some (Py.VStr "CNN+LSTM v1")
    /\ Py.dict_get doc "frame_scores"
       = Some (Py.VList (map Py.VDict (AnalyzeResponse.frame_scores response)))
    /\ Py.dict_get doc "analyzed_at"
       = Some (Py.VDatetime (AnalyzeResponse.analyzed_at response))
    /\ Py.dict_get doc "verification" = None
    /\ (forall id, Main.create_document env "analysisjob" doc = Py.Returns id ->
                   AnalyzeResponse.job_id response = id).
Proof.
  intros Hext.
  pose proof (analyze_media_accepted env file Hext) as Hrun. cbv zeta in Hrun.
  eexists. eexists. split; [exact Hrun|].
  do 11 (split; [reflexivity|]).
  intros id Hid. cbn [Spec.analysis AnalyzeResponse.job_id]. now rewrite Hid.
Qed.

Lemma C8_persisted_record_witness :
  exists response doc log,
    Py.run (Main.analyze_media Example.env_up Example.clip_mp4)
    = (Py.Returns response, log)
    /\ In (Py.CreateDocument "analysisjob" doc) log
    /\ List.length doc = 9%nat
    /\ Py.dict_get doc "verification" = None
    /\ AnalyzeResponse.job_id response = "664723f0a1b2c3d4e5f60718".
Proof.
  destruct (C8_persisted_record Example.env_up Example.clip_mp4 accepted_clip_mp4)
    as (response & doc & Hrun & Hkeys & H).
  exists response, doc. eexists. split; [exact Hrun|].
  split; [right; right; right; left; reflexivity|].
  split; [rewrite <- (length_map fst); fold (Py.keys doc); now rewrite Hkeys|].
  split; [apply H|]. now apply H.
Defined.

Lemma pseudo_rand_seed_0 (i : Z) : Main.pseudo_rand 0 i = 0%float.
Proof. unfold Main.pseudo_rand. rewrite Z.mul_0_l, Z.mod_0_l by lia. reflexivity. Qed.

(** C9. For every digest whose first 8 characters are ["00000000"] the
    seed is 0, every pseudo-random value is 0, each of the 60 frame
    scores carries exactly 0.5 and the likelihood is exactly 0.5; an
    accepted upload with such a digest gets exactly these in its
    response. *)
Theorem C9_zero_seed (alg : PyNum.sum_algorithm) (filehash : string) :
  PyStr.take 8 filehash = "00000000" ->
  PyStr.int16 (PyStr.take 8 filehash) = Some 0
  /\ (forall i, Main.pseudo_rand 0 i = 0%float)
  /\ Main.score_frames 0
     = map (fun i => [("frame_index", Py.VInt i); ("confidence", Py.VFloat 0.5)])
           (PyNum.range 60)
  /\ Py.run (Main.likelihood alg (Main.score_frames 0)) = (Py.Returns 0.5%float, [])
  /\ (forall env file,
         PyStr.endswith_any (PyStr.lower (UploadFile.filename file))
                            [".mp4"; ".avi"] = true ->
         Hashlib.sha256_hexdigest (UploadFile.content file) = filehash ->
         exists response log,
           Py.run (Main.analyze_media env file) = (Py.Returns response, log)
           /\ AnalyzeResponse.frame_scores response = Main.score_frames 0
           /\ AnalyzeResponse.deepfake_likelihood response = 0.5%float).
Proof.
  intros Hprefix.
  assert (Hscores : Main.score_frames 0
                    = map (fun i => [("frame_index", Py.VInt i);
                                     ("confidence", Py.VFloat 0.5)])
                          (PyNum.range 60))
    by (vm_compute; reflexivity).
  assert (Hmean : forall alg', Spec.mean alg' (Spec.confidences 0 60) = 0.5%float)
    by (intros []; vm_compute; reflexivity).
  split; [now rewrite Hprefix|].
  split; [exact pseudo_rand_seed_0|].
  split; [exact Hscores|].
  split.
  - unfold Py.run. now rewrite score_frames_generate, likelihood_generate, Hmean.
  - intros env file Hext Hdigest.
    pose proof (analyze_media_accepted env file Hext) as Hrun. cbv zeta in Hrun.
    eexists. eexists. split; [exact Hrun|].
    cbn [Spec.analysis AnalyzeResponse.frame_scores
         AnalyzeResponse.deepfake_likelihood].
    unfold Spec.likelihood, Spec.seed. rewrite Hdigest, Hprefix.
    change (Spec.hex_value "00000000") with 0.
    split; [symmetry; apply score_frames_generate | apply Hmean].
Qed.

Lemma C9_zero_seed_witness :
  PyStr.int16 (PyStr.take 8 Example.zero_prefixed_digest) = Some 0
  /\ Py.run (Main.likelihood PyNum.Compensated (Main.score_frames 0))
     = (Py.Returns 0.5%float, []).
Proof.
  destruct (C9_zero_seed PyNum.Compensated Example.zero_prefixed_digest eq_refl)
    as (Hseed & _ & _ & Hl & _).
  split; [exact Hseed | exact Hl].
Defined.

Lemma raw_confidence_value (seed i : Z) :
  (1 # 2 <= PyNum.Q_of_float (Main.raw_confidence seed i) <= 2047 # 2048)%Q.
Proof.
  pose proof (raw_confidence_in_range seed i) as H. unfold Table.raw_in_range in H.
  repeat (let H' := fresh "H" in apply andb_prop in H as [H H']).
  now apply in_range_value.
Qed.

(** C10. For every seed and every frame index the confidence before the
    clamp has a value from 1/2 to 0.99975, so
    [max(0.0, min(1.0, conf))] returns it unchanged; every confidence
    among the frame scores and the likelihood have a value from 1/2 up
    to, and not including, 1. *)
Theorem C10_confidence_range (alg : PyNum.sum_algorithm) (seed : Z) :
  (forall i,
      (1 # 2 <= PyNum.Q_of_float (Main.raw_confidence seed i) <= 99975 # 100000)%Q
      /\ PyNum.max2 0 (PyNum.min2 1 (Main.raw_confidence seed i))
         = Main.raw_confidence seed i)
  /\ (forall s, In s (Main.score_frames seed) ->
        exists i c,
          s = [("frame_index", Py.VInt i); ("confidence", Py.VFloat c)]
          /\ (1 # 2 <= PyNum.Q_of_float c)%Q /\ (PyNum.Q_of_float c < 1)%Q)
  /\ (exists l,
        Py.run (Main.likelihood alg (Main.score_frames seed)) = (Py.Returns l, [])
        /\ (1 # 2 <= PyNum.Q_of_float l)%Q /\ (PyNum.Q_of_float l < 1)%Q).
Proof.
  split; [|split].
  - intros i. destruct (raw_confidence_value seed i) as [L U].
    split; [split; [exact L|] | apply clamp_identity].
    eapply Qle_trans; [exact U | discriminate].
  - intros s Hs. rewrite score_frames_generate in Hs.
    unfold Spec.generate in Hs. apply in_map_iff in Hs as (i & <- & _).
    exists i, (Spec.confidence seed i). split; [reflexivity|].
    rewrite <- confidence_spec, (proj1 (clamp_identity seed i)).
    destruct (raw_confidence_value seed i) as [L U]. split; [exact L|].
    eapply Qle_lt_trans; [exact U | reflexivity].
  - exists (Spec.mean alg (Spec.confidences seed 60)). split.
    + unfold Py.run. now rewrite score_frames_generate, likelihood_generate.
    + destruct (likelihood_in_range alg seed) as (H1 & H2 & _).
      now apply half_to_one_value.
Qed.

(** * More properties of the code *)

(** ** Comparisons of binary64 numbers, continued *)

Lemma scaled_lt (m1 m2 : positive) (e1 e2 : Z) :
  e1 <= e2 -> Z.pos m1 < Z.pos m2 * 2 ^ (e2 - e1) ->
  (inject_Z (Z.pos m1) * Qpower 2 e1 < inject_Z (Z.pos m2) * Qpower 2 e2)%Q.
Proof.
  intros He Hm. rewrite (Qpower2_split e1 e2 He), Qmult_assoc, <- inject_Z_mult.
  apply Qmult_lt_compat_r.
  - apply Qpower_0_lt. reflexivity.
  - now rewrite <- Zlt_Qlt.
Qed.

Lemma SFcompare_Gt_value (m1 m2 : positive) (e1 e2 : Z) :
  bounded prec emax m1 e1 = true -> bounded prec emax m2 e2 = true ->
  SFcompare (S754_finite false m1 e1) (S754_finite false m2 e2) = Some Gt ->
  (PyNum.Q_of_spec_float (S754_finite false m2 e2)
   < PyNum.Q_of_spec_float (S754_finite false m1 e1))%Q.
Proof.
  intros B1 B2. unfold SFcompare, PyNum.Q_of_spec_float.
  destruct (Z.compare_spec e1 e2) as [He|He|He].
  - subst e2. change (Pos.compare_cont Eq m1 m2) with (m1 ?= m2)%positive.
    destruct (Pos.compare_spec m1 m2) as [Hm|Hm|Hm]; intros H; try discriminate H.
    apply scaled_lt; rewrite ?Z.sub_diag, ?Z.pow_0_r; lia.
  - discriminate.
  - intros _. apply scaled_lt; [lia|]. now apply smaller_exponent_lt.
Qed.

(** Between positive finite floats, [<=] holds whenever it holds between
    the values. *)
Lemma float_leb_of_value (x y : float) (m1 m2 : positive) (e1 e2 : Z) :
  Prim2SF x = S754_finite false m1 e1 ->
  Prim2SF y = S754_finite false m2 e2 ->
  (PyNum.Q_of_float x <= PyNum.Q_of_float y)%Q -> PrimFloat.leb x y = true.
Proof.
  intros Hx Hy H. unfold PyNum.Q_of_float in H.
  pose proof (Prim2SF_valid x) as Vx. pose proof (Prim2SF_valid y) as Vy.
  rewrite leb_spec. rewrite Hx in *. rewrite Hy in *.
  unfold SFleb.
  destruct (SFcompare (S754_finite false m1 e1) (S754_finite false m2 e2))
    as [[| |]|] eqn:C; try reflexivity.
  - apply (SFcompare_Gt_value m1 m2 e1 e2 Vx Vy) in C.
    exfalso. exact (Qlt_not_le _ _ C H).
  - cbn in C. discriminate C.
Qed.

Lemma float_ltb_leb (x y : float) :
  PrimFloat.ltb x y = true -> PrimFloat.leb x y = true.
Proof.
  rewrite ltb_spec, leb_spec. unfold SFltb, SFleb.
  destruct (SFcompare (Prim2SF x) (Prim2SF y)) as [[| |]|]; congruence.
Qed.

(** A float from 0.5 to 2047/2048 passes the tests [0 <= x] and
    [x <= 1] of a field declared with [ge=0, le=1]. *)
Lemma half_to_one_ge0_le1 (x : float) :
  PrimFloat.leb 0.5 x = true -> PrimFloat.leb x 0.99951171875 = true ->
  Schemas.ge0_le1 (Py.VFloat x) = true.
Proof.
  intros H1 H2.
  assert (Hlo : Prim2SF 0.5 = S754_finite false 4503599627370496 (-53))
    by (vm_compute; reflexivity).
  assert (Hhi : Prim2SF 0.99951171875 = S754_finite false 9002801208229888 (-53))
    by (vm_compute; reflexivity).
  assert (Hone : Prim2SF 1 = S754_finite false 4503599627370496 (-52))
    by (vm_compute; reflexivity).
  destruct (between_positive_finite _ _ x _ _ _ _ Hlo Hhi H1 H2) as (m & e & Hx).
  unfold Schemas.ge0_le1. apply andb_true_intro. split.
  - change (PyNum.float_of_int 0) with 0%float.
    rewrite leb_spec, Hx. reflexivity.
  - change (PyNum.float_of_int 1) with 1%float.
    apply (float_leb_of_value _ _ _ _ _ _ Hx Hone).
    destruct (in_range_value x H1 H2) as [_ U].
    eapply Qle_trans; [exact U|]. vm_compute. discriminate.
Qed.

(** ** The seed *)

Lemma nibble_bound (c : ascii) :
  0 <= match Spec.nibble c with Some d => d | None => 0 end < 16.
Proof.
  destruct (Spec.nibble c) as [d|] eqn:Hd; [|lia].
  now destruct (hex_digit_facts c d Hd) as (_ & H & _).
Qed.

Lemma hex_fold_bound (l : list ascii) :
  forall acc, 0 <= acc ->
  0 <= fold_left Spec.hex_step l acc < (acc + 1) * 16 ^ Z.of_nat (List.length l).
Proof.
  induction l as [|c l IH]; intros acc Hacc.
  - cbn. lia.
  - cbn [fold_left List.length]. rewrite Nat2Z.inj_succ, Z.pow_succ_r by lia.
    pose proof (nibble_bound c) as Hc.
    assert (Hstep : 0 <= Spec.hex_step acc c) by (unfold Spec.hex_step; lia).
    specialize (IH _ Hstep). split; [lia|].
    eapply Z.lt_le_trans; [exact (proj2 IH)|].
    assert (0 < 16 ^ Z.of_nat (List.length l)) by (apply Z.pow_pos_nonneg; lia).
    unfold Spec.hex_step. nia.
Qed.

Lemma take_length_le (n : nat) (s : string) :
  (String.length (PyStr.take n s) <= n)%nat.
Proof.
  revert s; induction n as [|n IH]; intros [|c r]; simpl; try lia.
  specialize (IH r). lia.
Qed.

Lemma chars_length (s : string) :
  List.length (list_ascii_of_string s) = String.length s.
Proof. induction s as [|c r IH]; simpl; [reflexivity | now rewrite IH]. Qed.

Lemma seed_bound (digest : string) : 0 <= Spec.seed digest < 4294967296.
Proof.
  unfold Spec.seed, Spec.hex_value.
  pose proof (hex_fold_bound (list_ascii_of_string (PyStr.take 8 digest)) 0
                ltac:(lia)) as [L U].
  split; [exact L|].
  eapply Z.lt_le_trans; [exact U|].
  rewrite chars_length. pose proof (take_length_le 8 digest) as Hlen.
  change 4294967296 with ((0 + 1) * 16 ^ 8).
  apply Z.mul_le_mono_nonneg_l; [lia|].
  apply Z.pow_le_mono_r; lia.
Qed.

(** X1. The seed [analyze_media] reads from the first 8 characters of
    the digest is at least 0 and below 2^32, and for every frame index
    of the loop the product [seed * (i + 73)] is below 2^40: the
    arithmetic before [% 1000] stays inside 64-bit integers. *)
Theorem X1_seed_fits_32_bits (content : list byte) (i : Z) :
  0 <= i < 60 ->
  let digest := Hashlib.sha256_hexdigest content in
  exists seed,
    PyStr.int16 (PyStr.take 8 digest) = Some seed
    /\ 0 <= seed < 2 ^ 32
    /\ 0 <= seed * (i + 73) < 2 ^ 40.
Proof.
  intros Hi digest. exists (Spec.seed digest).
  pose proof (seed_bound digest) as Hs.
  split; [|split].
  - apply int16_hex_numeral, digest_prefix_is_hex_numeral,
      sha256_hexdigest_is_digest.
  - change (2 ^ 32) with 4294967296. exact Hs.
  - change (2 ^ 40) with 1099511627776. nia.
Qed.

Lemma X1_seed_fits_32_bits_witness :
  exists seed,
    PyStr.int16 (PyStr.take 8 (Hashlib.sha256_hexdigest
                                 (UploadFile.content Example.clip_mp4)))
    = Some seed
    /\ 0 <= seed * (59 + 73) < 2 ^ 40.
Proof.
  destruct (X1_seed_fits_32_bits (UploadFile.content Example.clip_mp4) 59
              ltac:(lia))
    as (seed & Hseed & _ & Hprod).
  exists seed. split; [exact Hseed | exact Hprod].
Defined.

(** ** Seeds that agree modulo 1000 *)

Lemma generate_mod (seed : Z) (n : nat) :
  Spec.generate seed n = Spec.generate (seed mod 1000) n.
Proof.
  unfold Spec.generate. apply map_ext. intros i.
  unfold Spec.confidence, Spec.raw.
  now rewrite (pseudoRand_mod seed i), (pseudoRand_mod seed (i / 3)).
Qed.

(** X2. The frame scores and the likelihood depend on the seed only
    through its residue modulo 1000: two seeds with the same residue
    give the same 60 frame scores and the same likelihood, so there are
    at most 1000 different score sequences. *)
Theorem X2_scores_depend_on_residue
        (alg : PyNum.sum_algorithm) (seed1 seed2 : Z) :
  seed1 mod 1000 = seed2 mod 1000 ->
  Main.score_frames seed1 = Main.score_frames seed2
  /\ Py.run (Main.likelihood alg (Main.score_frames seed1))
     = Py.run (Main.likelihood alg (Main.score_frames seed2)).
Proof.
  intros H.
  assert (E : Main.score_frames seed1 = Main.score_frames seed2).
  { rewrite !score_frames_generate, (generate_mod seed1), (generate_mod seed2).
    now rewrite H. }
  split; [exact E | now rewrite E].
Qed.

Lemma X2_scores_depend_on_residue_witness :
  Main.score_frames 7 = Main.score_frames 4294966007.
Proof.
  exact (proj1 (X2_scores_depend_on_residue PyNum.LeftToRight 7 4294966007 eq_refl)).
Defined.

(** ** The job document and [schemas.py] *)

Lemma frame_score_conforms (seed i : Z) :
  Schemas.AnalysisFrameScore
    (Py.VDict (Spec.frame_score i (Spec.confidence seed i))) = true.
Proof.
  change (Schemas.ge0_le1 (Py.VFloat (Spec.confidence seed i)) = true).
  rewrite <- confidence_spec, (proj1 (clamp_identity seed i)).
  pose proof (raw_confidence_in_range seed i) as H. unfold Table.raw_in_range in H.
  repeat (let H' := fresh "H" in apply andb_prop in H as [H H']).
  unfold Schemas.ge0_le1. apply andb_true_intro. split.
  - change (PyNum.float_of_int 0) with 0%float. now apply float_ltb_leb.
  - change (PyNum.float_of_int 1) with 1%float. now apply float_ltb_leb.
Qed.

Lemma job_document_conforms (alg : PyNum.sum_algorithm) (file : UploadFile.t)
      (now : Datetime.datetime) :
  Schemas.AnalysisJob (Spec.job_document alg file now) = true.
Proof.
  set (digest := Hashlib.sha256_hexdigest (UploadFile.content file)).
  assert (Hacc : Schemas.ge0_le1 (Py.VFloat 0.95) = true)
    by (vm_compute; reflexivity).
  assert (Hl : Schemas.ge0_le1 (Py.VFloat (Spec.likelihood alg digest)) = true).
  { destruct (likelihood_in_range alg (Spec.seed digest)) as (H1 & H2 & _).
    now apply half_to_one_ge0_le1. }
  assert (Hfs : forallb Schemas.AnalysisFrameScore
                        (map Py.VDict (Spec.generate (Spec.seed digest) 60)) = true).
  { apply forallb_forall. intros v Hv.
    apply in_map_iff in Hv as (d & <- & Hd).
    unfold Spec.generate in Hd. apply in_map_iff in Hd as (i & <- & _).
    apply frame_score_conforms. }
  change (true && true && true && true
          && Schemas.ge0_le1 (Py.VFloat 0.95)
          && Schemas.ge0_le1 (Py.VFloat (Spec.likelihood alg digest))
          && true
          && forallb Schemas.AnalysisFrameScore
                     (map Py.VDict (Spec.generate (Spec.seed digest) 60))
          && true = true).
  now rewrite Hacc, Hl, Hfs.
Qed.

(** X3. Every document [analyze_media] hands to the store for the
    collection ["analysisjob"] has the shape [schemas.AnalysisJob]
    declares: the fields have the declared types, [status] is one of the
    four declared values, [accuracy] and [deepfake_likelihood] pass
    [ge=0, le=1], and every frame score has an [int] index and a
    confidence that passes [ge=0, le=1]. *)
Theorem X3_job_document_matches_schema (env : Main.Env) (file : UploadFile.t) :
  PyStr.endswith_any (PyStr.lower (UploadFile.filename file)) [".mp4"; ".avi"] = true ->
  exists response log,
    Py.run (Main.analyze_media env file) = (Py.Returns response, log)
    /\ (exists doc, In (Py.CreateDocument "analysisjob" doc) log)
    /\ (forall doc, In (Py.CreateDocument "analysisjob" doc) log ->
                    Schemas.AnalysisJob doc = true).
Proof.
  intros Hext.
  pose proof (analyze_media_accepted env file Hext) as Hrun. cbv zeta in Hrun.
  eexists. eexists. split; [exact Hrun|]. split.
  - eexists. right; right; right; left; reflexivity.
  - intros doc [H|[H|[H|[H|[]]]]]; try discriminate H.
    injection H as <-. apply job_document_conforms.
Qed.

Lemma X3_job_document_matches_schema_witness :
  exists response log doc,
    Py.run (Main.analyze_media Example.env_down Example.clip_mp4)
    = (Py.Returns response, log)
    /\ In (Py.CreateDocument "analysisjob" doc) log
    /\ Schemas.AnalysisJob doc = true.
Proof.
  destruct (X3_job_document_matches_schema Example.env_down Example.clip_mp4
              accepted_clip_mp4)
    as (response & log & Hrun & (doc & Hin) & Hall).
  exists response, log, doc. split; [exact Hrun|].
  split; [exact Hin | exact (Hall doc Hin)].
Defined.

(** ** [analyze_media] and [verify_media] on the same digest *)

(** X4. The verification record in the response of [analyze_media] is
    the record [verify_media] returns for the digest of the upload, in
    any mix of upper and lower case and under the same clock, without
    that record's leading [filehash] entry. *)
Theorem X4_analyze_agrees_with_verify
        (env : Main.Env) (file : UploadFile.t) (payload : VerifyRequest.t) :
  PyStr.endswith_any (PyStr.lower (UploadFile.filename file)) [".mp4"; ".avi"] = true ->
  PyStr.lower (VerifyRequest.filehash payload)
  = Hashlib.sha256_hexdigest (UploadFile.content file) ->
  exists response log verification,
    Py.run (Main.analyze_media env file) = (Py.Returns response, log)
    /\ AnalyzeResponse.verification response = Some verification
    /\ Py.run (Main.verify_media env payload)
       = (Py.Returns
            (("filehash",
              Py.VStr (Hashlib.sha256_hexdigest (UploadFile.content file)))
             :: verification),
          [Py.DatetimeNow]).
Proof.
  intros Hext Hfh.
  pose proof (analyze_media_accepted env file Hext) as Hrun. cbv zeta in Hrun.
  pose proof (sha256_hexdigest_is_digest (UploadFile.content file)) as Hd.
  eexists. eexists. eexists. split; [exact Hrun|]. split; [reflexivity|].
  assert (Hn : PyStr.int16 (PyStr.lower (VerifyRequest.filehash payload))
               = Some (Spec.hex_value
                         (Hashlib.sha256_hexdigest (UploadFile.content file)))).
  { rewrite Hfh. apply int16_hex_numeral. now apply digest_is_hex_numeral. }
  rewrite (verify_media_returns env payload _ Hn), Hfh.
  rewrite take_all by (rewrite (digest_length _ Hd); lia).
  reflexivity.
Qed.

Lemma X4_analyze_agrees_with_verify_witness :
  exists response log verification,
    Py.run (Main.analyze_media Example.env_up Example.clip_mp4)
    = (Py.Returns response, log)
    /\ AnalyzeResponse.verification response = Some verification
    /\ fst (Py.run (Main.verify_media Example.env_up Example.digest_abc))
       = Py.Returns
           (("filehash",
             Py.VStr "ba7816bf8f01cfea414140de5dae2223b00361a396177a9cb410ff61f20015ad")
            :: verification).
Proof.
  destruct (X4_analyze_agrees_with_verify Example.env_up Example.clip_mp4
              Example.digest_abc accepted_clip_mp4 (eq_sym sha256_abc))
    as (response & log & v & Hrun & Hv & Hverify).
  exists response, log, v. split; [exact Hrun|]. split; [exact Hv|].
  rewrite Hverify. cbn [fst].
  change (UploadFile.content Example.clip_mp4) with (Example.bytes_of_string "abc").
  now rewrite sha256_abc.
Defined.

(** X5. For every accepted upload the [filehash] written to the store is
    a string of 64 lower-case hexadecimal digits, and the [tx_hash] of
    the response is ["0x"] followed by that string: 66 characters. *)
Theorem X5_filehash_and_tx_hash_shape (env : Main.Env) (file : UploadFile.t) :
  PyStr.endswith_any (PyStr.lower (UploadFile.filename file)) [".mp4"; ".avi"] = true ->
  exists response log doc verification filehash,
    Py.run (Main.analyze_media env file) = (Py.Returns response, log)
    /\ In (Py.CreateDocument "analysisjob" doc) log
    /\ Py.dict_get doc "filehash" = Some (Py.VStr filehash)
    /\ Spec.is_digest filehash = true
    /\ AnalyzeResponse.verification response = Some verification
    /\ Py.dict_get verification "tx_hash" = Some (Py.VStr ("0x" ++ filehash))
    /\ String.length ("0x" ++ filehash) = 66%nat.
Proof.
  intros Hext.
  pose proof (analyze_media_accepted env file Hext) as Hrun. cbv zeta in Hrun.
  pose proof (sha256_hexdigest_is_digest (UploadFile.content file)) as Hd.
  eexists. eexists. eexists. eexists. eexists. split; [exact Hrun|].
  split; [right; right; right; left; reflexivity|].
  split; [reflexivity|]. split; [exact Hd|].
  split; [reflexivity|]. split; [reflexivity|].
  cbn [String.append String.length]. now rewrite (digest_length _ Hd).
Qed.

Lemma X5_filehash_and_tx_hash_shape_witness :
  exists response log verification tx_hash,
    Py.run (Main.analyze_media Example.env_up Example.clip_mp4)
    = (Py.Returns response, log)
    /\ AnalyzeResponse.verification response = Some verification
    /\ Py.dict_get verification "tx_hash" = Some (Py.VStr tx_hash)
    /\ String.length tx_hash = 66%nat.
Proof.
  destruct (X5_filehash_and_tx_hash_shape Example.env_up Example.clip_mp4
              accepted_clip_mp4)
    as (response & log & doc & v & h & Hrun & _ & _ & _ & Hv & Htx & Hlen).
  exists response, log, v, ("0x" ++ h).
  split; [exact Hrun|]. split; [exact Hv|]. split; [exact Htx | exact Hlen].
Defined.

(** ** File names too short to carry an extension *)

(** X6. A file name of fewer than four characters, the empty name
    included, is rejected with status 400 and without any call. *)
Theorem X6_short_names_rejected (env : Main.Env) (file : UploadFile.t) :
  (String.length (UploadFile.filename file) < 4)%nat ->
  Py.run (Main.analyze_media env file)
  = (Py.Raises (Py.HTTPException 400 "Only MP4 or AVI files are supported"), []).
Proof.
  intros Hlen. unfold Py.run, Main.analyze_media.
  assert (E : PyStr.endswith_any (PyStr.lower (UploadFile.filename file))
                                 [".mp4"; ".avi"] = false).
  { unfold PyStr.endswith_any, PyStr.endswith. cbn [existsb String.length].
    rewrite lower_length.
    replace (4 <=? String.length (UploadFile.filename file))%nat with false
      by (symmetry; apply Nat.leb_gt; lia).
    reflexivity. }
  now rewrite E.
Qed.

Lemma X6_short_names_rejected_witness :
  Py.run (Main.analyze_media Example.env_up
            {| UploadFile.filename := "mp4"; UploadFile.content := [] |})
  = (Py.Raises (Py.HTTPException 400 "Only MP4 or AVI files are supported"), []).
Proof.
  apply (X6_short_names_rejected Example.env_up
           {| UploadFile.filename := "mp4"; UploadFile.content := [] |}).
  cbn. lia.
Defined.

(** ** [verify_media]: normal form, effects, length of [tx_hash] *)

Lemma lower_char_idempotent (c : ascii) :
  PyStr.lower_char (PyStr.lower_char c) = PyStr.lower_char c.
Proof. each_ascii c; reflexivity. Qed.

Lemma lower_idempotent (s : string) : PyStr.lower (PyStr.lower s) = PyStr.lower s.
Proof.
  induction s as [|c r IH]; simpl; [reflexivity|].
  now rewrite lower_char_idempotent, IH.
Qed.

Lemma verify_media_lower (env : Main.Env) (p1 p2 : VerifyRequest.t) :
  PyStr.lower (VerifyRequest.filehash p1) = PyStr.lower (VerifyRequest.filehash p2) ->
  Py.run (Main.verify_media env p1) = Py.run (Main.verify_media env p2).
Proof. intros H. unfold Py.run, Main.verify_media. now rewrite H. Qed.

(** X7. The record [verify_media] returns depends on the digest only
    through its lower-cased form, and that form is what the record
    carries as [filehash]: sending the returned [filehash] again, or any
    string that lower-cases to it, returns the same record. *)
Theorem X7_verify_normal_form
        (env : Main.Env) (payload : VerifyRequest.t)
        (record : Py.dict) (log : list Py.event) :
  Py.run (Main.verify_media env payload) = (Py.Returns record, log) ->
  exists filehash,
    Py.dict_get record "filehash" = Some (Py.VStr filehash)
    /\ filehash = PyStr.lower (VerifyRequest.filehash payload)
    /\ (forall payload',
          PyStr.lower (VerifyRequest.filehash payload') = filehash ->
          Py.run (Main.verify_media env payload') = (Py.Returns record, log))
    /\ Py.run (Main.verify_media env {| VerifyRequest.filehash := filehash |})
       = (Py.Returns record, log).
Proof.
  intros Hrun.
  destruct (verify_media_inversion env payload record log Hrun) as [n Hn].
  pose proof Hrun as Hrun'.
  rewrite (verify_media_returns env payload n Hn) in Hrun'.
  injection Hrun' as <- <-.
  exists (PyStr.lower (VerifyRequest.filehash payload)).
  split; [reflexivity|]. split; [reflexivity|]. split.
  - intros payload' H. rewrite <- Hrun. now apply verify_media_lower.
  - rewrite <- Hrun. apply verify_media_lower. cbn. apply lower_idempotent.
Qed.

Lemma X7_verify_normal_form_witness :
  exists record log,
    Py.run (Main.verify_media Example.env_up Example.digest_abc)
    = (Py.Returns record, log)
    /\ Py.run (Main.verify_media Example.env_up
                 {| VerifyRequest.filehash :=
                      "ba7816bf8f01cfea414140de5dae2223b00361a396177a9cb410ff61f20015ad" |})
       = (Py.Returns record, log).
Proof.
  eexists. eexists.
  pose proof (verify_media_returns Example.env_up Example.digest_abc _ eq_refl) as Hrun.
  split; [exact Hrun|].
  destruct (X7_verify_normal_form Example.env_up Example.digest_abc _ _ Hrun)
    as (fh & _ & Hfh & Hany & _).
  apply Hany. rewrite Hfh. reflexivity.
Defined.


Lemma take_length (n : nat) (s : string) :
  String.length (PyStr.take n s) = Nat.min n (String.length s).
Proof.
  revert s; induction n as [|n IH]; intros [|c r]; simpl; try reflexivity.
  now rewrite IH.
Qed.

(** X9. For a digest of [n] characters the [tx_hash] [verify_media]
    returns has [2 + min 64 n] characters: never more than 66. *)
Theorem X9_tx_hash_length
        (env : Main.Env) (payload : VerifyRequest.t)
        (record : Py.dict) (log : list Py.event) :
  Py.run (Main.verify_media env payload) = (Py.Returns record, log) ->
  exists tx_hash,
    Py.dict_get record "tx_hash" = Some (Py.VStr tx_hash)
    /\ String.length tx_hash
       = (2 + Nat.min 64 (String.length (VerifyRequest.filehash payload)))%nat
    /\ (String.length tx_hash <= 66)%nat.
Proof.
  intros Hrun.
  destruct (verify_media_inversion env payload record log Hrun) as [n Hn].
  rewrite (verify_media_returns env payload n Hn) in Hrun.
  injection Hrun as <- _.
  exists ("0x" ++ PyStr.take 64 (PyStr.lower (VerifyRequest.filehash payload))).
  split; [reflexivity|].
  change (String.length
            ("0x" ++ PyStr.take 64 (PyStr.lower (VerifyRequest.filehash payload))))
    with (S (S (String.length
                  (PyStr.take 64 (PyStr.lower (VerifyRequest.filehash payload)))))).
  rewrite take_length, lower_length. lia.
Qed.

Lemma X9_tx_hash_length_witness :
  exists record log tx_hash,
    Py.run (Main.verify_media Example.env_up Example.long_numeral)
    = (Py.Returns record, log)
    /\ Py.dict_get record "tx_hash" = Some (Py.VStr tx_hash)
    /\ String.length tx_hash = 66%nat.
Proof.
  pose proof (verify_media_returns Example.env_up Example.long_numeral _ eq_refl)
    as Hrun.
  destruct (X9_tx_hash_length Example.env_up Example.long_numeral _ _ Hrun)
    as (tx & Htx & Hlen & _).
  eexists. eexists. exists tx. split; [exact Hrun|]. split; [exact Htx|exact Hlen].
Defined.

(** ** [verify_media] on a numeral with a [0x] prefix *)

Lemma int16_prefixed (t : string) :
  Spec.is_hex_numeral t = true ->
  PyStr.int16 (String "0" (String "x" t)) = Some (Spec.hex_value t).
Proof.
  destruct t as [|c r]; [discriminate|].
  unfold Spec.is_hex_numeral. intros Hall.
  pose proof (hex_numeral_is_ascii _ Hall) as Hascii.
  pose proof Hall as Hall'. simpl in Hall'.
  apply andb_prop in Hall' as [Hc _].
  destruct (is_hex_digit_nibble c Hc) as [d Hd].
  destruct (hex_digit_facts c d Hd) as (_ & _ & _ & Hu & _).
  unfold PyStr.int16.
  replace (PyStr.is_ascii (String "0" (String "x" (String c r)))) with true
    by (symmetry; exact Hascii).
  unfold PyStr.long_from_string16.
  change (PyStr.skip_spaces (String "0" (String "x" (String c r))))
    with (String "0" (String "x" (String c r))).
  cbv beta iota zeta.
  change (PyStr.code "0" =? 43) with false.
  change (PyStr.code "0" =? 45) with false.
  cbv beta iota zeta.
  change ((PyStr.code "0" =? 48)
          && ((PyStr.code "x" =? 120) || (PyStr.code "x" =? 88))) with true.
  cbv beta iota zeta.
  rewrite !Hu.
  rewrite (scan_digits_hex (String c r) 0 0 Hall).
  rewrite ?Hu. reflexivity.
Qed.

(** X10. [verify_media] also accepts a hexadecimal numeral behind a
    [0x] or [0X] prefix, since [int(fh, 16)] does; [verified] is then the
    parity of the numeral, and [tx_hash] is ["0x"] followed by the first
    64 characters of the lower-cased input, prefix included: it starts
    with ["0x0x"] and keeps at most 62 digits of the numeral. *)
Theorem X10_verify_accepts_prefixed_numerals
        (env : Main.Env) (payload : VerifyRequest.t) (numeral : string) :
  Spec.is_hex_numeral numeral = true ->
  (VerifyRequest.filehash payload = "0x" ++ numeral
   \/ VerifyRequest.filehash payload = "0X" ++ numeral) ->
  exists record,
    Py.run (Main.verify_media env payload) = (Py.Returns record, [Py.DatetimeNow])
    /\ Py.dict_get record "verified"
       = Some (Py.VBool (Z.even (Spec.hex_value numeral)))
    /\ Py.dict_get record "tx_hash"
       = Some (Py.VStr ("0x0x" ++ PyStr.take 62 (PyStr.lower numeral))).
Proof.
  intros Hhex Hfh.
  assert (Hlow : PyStr.lower (VerifyRequest.filehash payload)
                 = String "0" (String "x" (PyStr.lower numeral))).
  { destruct Hfh as [-> | ->]; reflexivity. }
  assert (Hn : PyStr.int16 (PyStr.lower (VerifyRequest.filehash payload))
               = Some (Spec.hex_value numeral)).
  { rewrite Hlow, <- hex_value_lower. apply int16_prefixed.
    now rewrite hex_numeral_lower. }
  eexists. split; [exact (verify_media_returns env payload _ Hn)|].
  split; [reflexivity|].
  rewrite Hlow. reflexivity.
Qed.

Lemma X10_verify_accepts_prefixed_numerals_witness :
  exists record,
    Py.run (Main.verify_media Example.env_up Sample.prefixed)
    = (Py.Returns record, [Py.DatetimeNow])
    /\ Py.dict_get record "tx_hash"
       = Some (Py.VStr
                 "0x0xba7816bf8f01cfea414140de5dae2223b00361a396177a9cb410ff61f20015").
Proof.
  destruct (X10_verify_accepts_prefixed_numerals Example.env_up Sample.prefixed
              "BA7816BF8F01CFEA414140DE5DAE2223B00361A396177A9CB410FF61F20015AD"
              eq_refl (or_intror eq_refl))
    as (record & Hrun & _ & Htx).
  exists record. split; [exact Hrun | exact Htx].
Defined.

(** ** [stats] *)

Lemma dict_pop_get_same (d : Py.dict) (key : string) :
  Py.dict_get (PyMore.dict_pop d key) key = None.
Proof.
  induction d as [|[k v] d IH]; [reflexivity|].
  unfold PyMore.dict_pop. cbn [filter fst].
  destruct (String.eqb k key) eqn:E; cbn [negb]; [exact IH|].
  cbn [Py.dict_get]. rewrite E. exact IH.
Qed.

Lemma dict_pop_get_other (d : Py.dict) (key key' : string) :
  key' <> key ->
  Py.dict_get (PyMore.dict_pop d key) key' = Py.dict_get d key'.
Proof.
  intros Hne. induction d as [|[k v] d IH]; [reflexivity|].
  unfold PyMore.dict_pop. cbn [filter fst Py.dict_get].
  destruct (String.eqb k key) eqn:E; cbn [negb].
  - apply String.eqb_eq in E. subst k.
    destruct (String.eqb key key') eqn:E'.
    + apply String.eqb_eq in E'. congruence.
    + exact IH.
  - cbn [Py.dict_get]. destruct (String.eqb k key'); [reflexivity | exact IH].
Qed.

Lemma collect_dicts (docs : list Py.dict) :
  forall recent tail,
    Handlers.collect (map Py.VDict docs ++ tail) recent
    = Handlers.collect tail
        (recent ++ map (fun d => PyMore.dict_pop d "_id") docs).
Proof.
  induction docs as [|d docs IH]; intros recent tail.
  - cbn. now rewrite app_nil_r.
  - cbn [map app Handlers.collect]. rewrite IH, <- app_assoc. reflexivity.
Qed.

Lemma int_of_float_finite (f : float) :
  PrimFloat.is_finite f = true -> exists n, PyMore.int_of_float f = Py.Returns n.
Proof.
  unfold PrimFloat.is_finite, PyMore.int_of_float. intros H.
  apply negb_true_iff, orb_false_iff in H as [-> ->].
  destruct (Prim2SF f); eauto.
Qed.

Lemma stats_returns (env : Handlers.StatsEnv) (n : Z) :
  PyMore.int_of_float (Handlers.timestamp env) = Py.Returns n ->
  Handlers.stats env
  = Py.Returns
      [ ("accuracy_benchmark", Py.VFloat 0.95);
        ("realtime_threats", Py.VInt (n mod 100));
        ("analyses", Py.VInt (Z.of_nat (List.length (Handlers.recent_jobs env))));
        ("recent", Py.VList (map Py.VDict (Handlers.recent_jobs env))) ].
Proof. intros H. unfold Handlers.stats. now rewrite H. Qed.

(** X11. [stats] does not fail when the store does: whenever the clock
    reading is finite it returns its report, and when [get_documents]
    raises, whatever the exception, the report counts 0 analyses and
    lists none. *)
Theorem X11_stats_survives_store_failure (env : Handlers.StatsEnv) :
  PrimFloat.is_finite (Handlers.timestamp env) = true ->
  exists report,
    Handlers.stats env = Py.Returns report
    /\ (forall e,
          Handlers.get_documents env "analysisjob" 10 = Py.Raises e ->
          Py.dict_get report "analyses" = Some (Py.VInt 0)
          /\ Py.dict_get report "recent" = Some (Py.VList [])).
Proof.
  intros Hfin. destruct (int_of_float_finite _ Hfin) as [n Hn].
  eexists. split; [exact (stats_returns env n Hn)|].
  intros e He. unfold Handlers.recent_jobs. rewrite He. split; reflexivity.
Qed.

Lemma X11_stats_survives_store_failure_witness :
  exists report,
    Handlers.stats Sample.store_down = Py.Returns report
    /\ Py.dict_get report "analyses" = Some (Py.VInt 0).
Proof.
  destruct (X11_stats_survives_store_failure Sample.store_down eq_refl)
    as (report & Hrun & Hdown).
  exists report. split; [exact Hrun|]. exact (proj1 (Hdown _ eq_refl)).
Defined.

(** X12. When the store returns documents, [stats] reports as many
    analyses as there are documents and lists them in the same order,
    each without its [_id] entry and with every other entry as the
    store gave it. *)
Theorem X12_stats_lists_documents_without_id
        (env : Handlers.StatsEnv) (docs : list Py.dict) :
  PrimFloat.is_finite (Handlers.timestamp env) = true ->
  Handlers.get_documents env "analysisjob" 10 = Py.Returns (map Py.VDict docs) ->
  exists report recent,
    Handlers.stats env = Py.Returns report
    /\ Py.dict_get report "analyses" = Some (Py.VInt (Z.of_nat (List.length docs)))
    /\ Py.dict_get report "recent" = Some (Py.VList (map Py.VDict recent))
    /\ List.length recent = List.length docs
    /\ (forall i d,
          nth_error docs i = Some d ->
          exists d',
            nth_error recent i = Some d'
            /\ Py.dict_get d' "_id" = None
            /\ (forall key, key <> "_id" -> Py.dict_get d' key = Py.dict_get d key)).
Proof.
  intros Hfin Hdocs. destruct (int_of_float_finite _ Hfin) as [n Hn].
  assert (Hrecent : Handlers.recent_jobs env
                    = map (fun d => PyMore.dict_pop d "_id") docs).
  { unfold Handlers.recent_jobs. rewrite Hdocs.
    rewrite <- (app_nil_r (map Py.VDict docs)), collect_dicts. reflexivity. }
  exists [ ("accuracy_benchmark", Py.VFloat 0.95);
           ("realtime_threats", Py.VInt (n mod 100));
           ("analyses", Py.VInt (Z.of_nat (List.length (Handlers.recent_jobs env))));
           ("recent", Py.VList (map Py.VDict (Handlers.recent_jobs env))) ],
         (map (fun d => PyMore.dict_pop d "_id") docs).
  split; [exact (stats_returns env n Hn)|].
  rewrite Hrecent, !length_map.
  split; [reflexivity|]. split; [reflexivity|]. split; [reflexivity|].
  intros i d Hi. exists (PyMore.dict_pop d "_id").
  split; [now apply map_nth_error|].
  split; [apply dict_pop_get_same|].
  intros key Hkey. now apply dict_pop_get_other.
Qed.

Lemma X12_stats_lists_documents_without_id_witness :
  exists report,
    Handlers.stats
      (Sample.store_with
         [Sample.stored [("filehash", Py.VStr "ab")]; Py.VDict [("model", Py.VStr "m")]])
    = Py.Returns report
    /\ Py.dict_get report "analyses" = Some (Py.VInt 2)
    /\ Py.dict_get report "recent"
       = Some (Py.VList [ Py.VDict [("filehash", Py.VStr "ab")];
                          Py.VDict [("model", Py.VStr "m")] ]).
Proof.
  destruct (X12_stats_lists_documents_without_id
              (Sample.store_with
                 [Sample.stored [("filehash", Py.VStr "ab")];
                  Py.VDict [("model", Py.VStr "m")]])
              [ ("_id", Py.VStr "664723f0a1b2c3d4e5f60718")
                  :: [("filehash", Py.VStr "ab")];
                [("model", Py.VStr "m")] ]
              eq_refl eq_refl)
    as (report & recent & Hrun & Hcount & _).
  exists report. split; [exact Hrun|]. split; [exact Hcount|].
  vm_compute in Hrun. injection Hrun as <-. reflexivity.
Defined.

(** X13. Whenever [stats] returns, [realtime_threats] is an integer from
    0 to 99 and [accuracy_benchmark] is 0.95; [stats] raises only when
    the clock reading is no finite number. *)
Theorem X13_realtime_threats_range (env : Handlers.StatsEnv) :
  (forall report,
      Handlers.stats env = Py.Returns report ->
      (exists n, Py.dict_get report "realtime_threats" = Some (Py.VInt n)
                 /\ 0 <= n < 100)
      /\ Py.dict_get report "accuracy_benchmark" = Some (Py.VFloat 0.95))
  /\ (forall e, Handlers.stats env = Py.Raises e ->
                PrimFloat.is_finite (Handlers.timestamp env) = false).
Proof.
  split.
  - intros report Hrun. unfold Handlers.stats in Hrun.
    destruct (PyMore.int_of_float (Handlers.timestamp env)) as [n|e];
      [|discriminate Hrun].
    injection Hrun as <-. split; [|reflexivity].
    exists (n mod 100). split; [reflexivity|]. apply Z.mod_pos_bound. lia.
  - intros e Hrun.
    destruct (PrimFloat.is_finite (Handlers.timestamp env)) eqn:Hfin; [|reflexivity].
    destruct (int_of_float_finite _ Hfin) as [n Hn].
    rewrite (stats_returns env n Hn) in Hrun. discriminate Hrun.
Qed.

(** X14. When an item the store returns is no [dict], [stats] still
    returns: it reports the documents that came before that item and
    leaves out the item and everything after it. *)
Theorem X14_stats_stops_at_first_non_dict
        (env : Handlers.StatsEnv) (docs : list Py.dict)
        (item : Py.pyval) (rest : list Py.pyval) :
  PrimFloat.is_finite (Handlers.timestamp env) = true ->
  (forall d, item <> Py.VDict d) ->
  Handlers.get_documents env "analysisjob" 10
  = Py.Returns (map Py.VDict docs ++ item :: rest)%list ->
  exists report,
    Handlers.stats env = Py.Returns report
    /\ Py.dict_get report "analyses" = Some (Py.VInt (Z.of_nat (List.length docs)))
    /\ Py.dict_get report "recent"
       = Some (Py.VList (map Py.VDict
                           (map (fun d => PyMore.dict_pop d "_id") docs))).
Proof.
  intros Hfin Hitem Hdocs. destruct (int_of_float_finite _ Hfin) as [n Hn].
  assert (Hrecent : Handlers.recent_jobs env
                    = map (fun d => PyMore.dict_pop d "_id") docs).
  { unfold Handlers.recent_jobs. rewrite Hdocs, collect_dicts.
    destruct item; try reflexivity. now destruct (Hitem d). }
  eexists. split; [exact (stats_returns env n Hn)|].
  rewrite Hrecent, length_map. split; reflexivity.
Qed.

Lemma X14_stats_stops_at_first_non_dict_witness :
  exists report,
    Handlers.stats
      (Sample.store_with
         [Py.VDict [("model", Py.VStr "m")]; Py.VNone; Py.VDict []])
    = Py.Returns report
    /\ Py.dict_get report "analyses" = Some (Py.VInt 1).
Proof.
  destruct (X14_stats_stops_at_first_non_dict
              (Sample.store_with
                 [Py.VDict [("model", Py.VStr "m")]; Py.VNone; Py.VDict []])
              [[("model", Py.VStr "m")]] Py.VNone [Py.VDict []]
              eq_refl ltac:(discriminate) eq_refl)
    as (report & Hrun & Hcount & _).
  exists report. split; [exact Hrun | exact Hcount].
Defined.

(** ** [analyze_media], then [stats] *)

(** X15. What [analyze_media] stores, [stats] gives back: when the store
    returns the document of an analysis with an [_id] entry put in
    front, [stats] lists exactly that document, whose [filehash] is the
    digest of the upload and whose [deepfake_likelihood] and
    [frame_scores] are those of the response. *)
Theorem X15_stats_gives_back_the_job_document
        (env : Main.Env) (store : Handlers.StatsEnv) (file : UploadFile.t)
        (id : Py.pyval) :
  PyStr.endswith_any (PyStr.lower (UploadFile.filename file)) [".mp4"; ".avi"] = true ->
  PrimFloat.is_finite (Handlers.timestamp store) = true ->
  (forall doc,
      In (Py.CreateDocument "analysisjob" doc)
         (snd (Py.run (Main.analyze_media env file))) ->
      Handlers.get_documents store "analysisjob" 10
      = Py.Returns [Py.VDict (("_id", id) :: doc)]) ->
  exists response log doc report,
    Py.run (Main.analyze_media env file) = (Py.Returns response, log)
    /\ In (Py.CreateDocument "analysisjob" doc) log
    /\ Handlers.stats store = Py.Returns report
    /\ Py.dict_get report "analyses" = Some (Py.VInt 1)
    /\ Py.dict_get report "recent" = Some (Py.VList [Py.VDict doc])
    /\ Py.dict_get doc "filehash"
       = Some (Py.VStr (Hashlib.sha256_hexdigest (UploadFile.content file)))
    /\ Py.dict_get doc "deepfake_likelihood"
       = Some (Py.VFloat (AnalyzeResponse.deepfake_likelihood response))
    /\ Py.dict_get doc "frame_scores"
       = Some (Py.VList (map Py.VDict (AnalyzeResponse.frame_scores response))).
Proof.
  intros Hext Hfin Hstore.
  pose proof (analyze_media_accepted env file Hext) as Hrun. cbv zeta in Hrun.
  rewrite Hrun in Hstore. cbn [snd] in Hstore.
  specialize (Hstore _ (or_intror (or_intror (or_intror (or_introl eq_refl))))).
  destruct (int_of_float_finite _ Hfin) as [n Hn].
  assert (Hrecent : Handlers.recent_jobs store
                    = [Spec.job_document (Main.sum_algorithm env) file (Main.now env)]).
  { unfold Handlers.recent_jobs. rewrite Hstore. reflexivity. }
  eexists. eexists. eexists. eexists. split; [exact Hrun|].
  split; [right; right; right; left; reflexivity|].
  split; [exact (stats_returns store n Hn)|].
  rewrite Hrecent. repeat split.
Qed.

Lemma X15_stats_gives_back_the_job_document_witness :
  exists response log doc report,
    Py.run (Main.analyze_media Example.env_up Example.clip_mp4)
    = (Py.Returns response, log)
    /\ In (Py.CreateDocument "analysisjob" doc) log
    /\ Handlers.stats
         (Sample.store_with
            [Sample.stored
               (Spec.job_document PyNum.LeftToRight Example.clip_mp4 Example.clock)])
       = Py.Returns report
    /\ Py.dict_get report "recent" = Some (Py.VList [Py.VDict doc]).
Proof.
  destruct (X15_stats_gives_back_the_job_document
              Example.env_up
              (Sample.store_with
                 [Sample.stored
                    (Spec.job_document PyNum.LeftToRight Example.clip_mp4
                                       Example.clock)])
              Example.clip_mp4 (Py.VStr "664723f0a1b2c3d4e5f60718")
              accepted_clip_mp4 eq_refl)
    as (response & log & doc & report & Hrun & Hin & Hstats & _ & Hrecent & _).
  - intros doc Hin.
    rewrite (analyze_media_accepted Example.env_up Example.clip_mp4
               accepted_clip_mp4) in Hin.
    destruct Hin as [H|[H|[H|[H|[]]]]]; try discriminate H.
    injection H as <-. reflexivity.
  - exists response, log, doc, report.
    split; [exact Hrun|]. split; [exact Hin|]. split; [exact Hstats | exact Hrecent].
Defined.

(** ** [test] *)

(** X16. The report of [test] always says that the backend is running
    and never shows the text it starts with for the database, "Not
    Available".  It says "Connected", and lists the collections, exactly
    when a store is configured and lists its collections; it says "Not
    Configured" when there is none; and when the listing raises, it
    shows the warning mark and at most the first 80 characters of the
    exception's text, and no collections. *)
Theorem X16_test_report (db : option Handlers.listing) :
  Handlers.getitem_opt (Handlers.test db) "backend"
  = Some (Handlers.TStr Handlers.running)
  /\ Handlers.getitem_opt (Handlers.test db) "database"
     <> Some (Handlers.TStr Handlers.not_available)
  /\ (forall names,
        db = Some (Handlers.Names names)
        <-> Handlers.getitem_opt (Handlers.test db) "collections"
            = Some (Handlers.TList names))
  /\ ((exists names, db = Some (Handlers.Names names))
      <-> Handlers.getitem_opt (Handlers.test db) "database"
          = Some (Handlers.TStr Handlers.connected))
  /\ (db = None
      <-> Handlers.getitem_opt (Handlers.test db) "database"
          = Some (Handlers.TStr Handlers.not_configured))
  /\ (forall text,
        db = Some (Handlers.ListingRaises text) ->
        exists shown,
          Handlers.getitem_opt (Handlers.test db) "database"
          = Some (Handlers.TStr ([9888; 65039; 32] ++ shown)%list)
          /\ shown = firstn 80 text
          /\ (List.length shown <= 80)%nat
          /\ Handlers.getitem_opt (Handlers.test db) "collections" = None).
Proof.
  destruct db as [[names|text]|].
  - split; [reflexivity|]. split; [discriminate|]. split.
    { intros names'. split; intros H.
      - injection H as <-. reflexivity.
      - cbn in H. injection H as <-. reflexivity. }
    split; [split; [reflexivity | eauto]|].
    split; [split; discriminate|]. discriminate.
  - split; [reflexivity|]. split; [discriminate|]. split.
    { intros names'. split; discriminate. }
    split; [split; [intros [names H]; discriminate H | discriminate]|].
    split; [split; discriminate|].
    intros text' H. injection H as <-. exists (firstn 80 text).
    split; [reflexivity|]. split; [reflexivity|].
    split; [apply firstn_le_length | reflexivity].
  - split; [reflexivity|]. split; [discriminate|]. split.
    { intros names'. split; discriminate. }
    split; [split; [intros [names H]; discriminate H | discriminate]|].
    split; [split; reflexivity|]. discriminate.
Qed.
